(** * EVC voice-conversion pipeline (vc.py): shallow embedding and properties

  The module [vc.py] validates a list of audio paths, probes a duration,
  draws a run tag, resolves a model in a registry, configures an external
  converter and runs it.  Python exceptions are an explicit [outcome];
  the calls to external collaborators are recorded in a trace that is
  threaded, with the converter's internal state, through a small
  state-and-exception monad. *)

From Stdlib Require Import ZArith List String Ascii Bool Lia.
From Stdlib Require Import Floats.PrimFloat.
Import ListNotations.

Open Scope list_scope.
Open Scope string_scope.

(* ================================================================== *)
(** ** Python strings and integers *)

Module PyStr.

(** [s.endswith(suffix)] *)
Definition endswith (s suffix : string) : bool :=
  (length suffix <=? length s)%nat &&
  (substring (length s - length suffix) (length suffix) s =? suffix).

(** [p] stripped from the front of [s], when [s] starts with it. *)
Fixpoint strip_prefix (p s : string) : option string :=
  match p, s with
  | EmptyString, _ => Some s
  | String a p', String b s' => if Ascii.eqb a b then strip_prefix p' s' else None
  | String _ _, EmptyString => None
  end.

Definition is_digit (c : ascii) : bool :=
  (48 <=? nat_of_ascii c)%nat && (nat_of_ascii c <=? 57)%nat.

Fixpoint all_digits (s : string) : bool :=
  match s with
  | EmptyString => true
  | String c s' => is_digit c && all_digits s'
  end.

Definition digit_char (d : Z) : ascii := ascii_of_nat (48 + Z.to_nat d).

Definition digit_value (c : ascii) : Z := Z.of_nat (nat_of_ascii c) - 48.

(** Decimal digits of a non-negative integer, most significant first,
    pushed in front of [acc]. *)
Fixpoint digits_of (fuel : nat) (n : Z) (acc : string) : string :=
  match fuel with
  | O => acc
  | S fuel' =>
      let acc' := String (digit_char (n mod 10)) acc in
      if (n <? 10)%Z then acc' else digits_of fuel' (n / 10) acc'
  end.

(** [str(n)], which is what an f-string field [{n}] inserts for an int.
    The binary length of [n] bounds its number of decimal digits. *)
Definition str_int (n : Z) : string :=
  if (n <? 0)%Z
  then String "-" (digits_of (S (Z.to_nat (Z.log2 (- n)))) (- n) "")
  else digits_of (S (Z.to_nat (Z.log2 n))) n "".

(** Value of a string of decimal digits, on top of [acc]. *)
Fixpoint decimal_value (s : string) (acc : Z) : Z :=
  match s with
  | EmptyString => acc
  | String c s' => decimal_value s' (10 * acc + digit_value c)
  end.

End PyStr.
Import PyStr.

(* ================================================================== *)
(** ** Exceptions *)

(** The exceptions the pipeline can meet.  [AudioConverterError] is the
  module's own class; [NameError] and [IndexError] are raised by the
  interpreter; [ExternalError] stands for any other subclass of
  [Exception] raised by a collaborator, with [str(e)] as payload;
  [SystemExiting] stands for the classes under [BaseException] that do
  not derive from [Exception] (KeyboardInterrupt, SystemExit,
  GeneratorExit). *)
Inductive exn : Type :=
| AudioConverterError (msg : string)
| NameError (name : string)
| IndexError (msg : string)
| ExternalError (msg : string)
| SystemExiting (msg : string).

(** [isinstance(e, Exception)] *)
Definition is_Exception (e : exn) : bool :=
match e with
| SystemExiting _ => false
| _ => true
end.

(** [str(e)] *)
Definition str_exn (e : exn) : string :=
match e with
| AudioConverterError msg => msg
| NameError name => "name '" ++ name ++ "' is not defined"
| IndexError msg => msg
| ExternalError msg => msg
| SystemExiting msg => msg
end.

Inductive outcome (A : Type) : Type :=
| Return (a : A)
| Raise (e : exn).
Arguments Return {A} a.
Arguments Raise {A} e.

(** The error kinds of the specification, as the code raises them. *)
Definition InvalidInput : exn := AudioConverterError "No audio files provided".
Definition FileNotFound (file_path : string) : exn :=
AudioConverterError ("Audio file not found: " ++ file_path).
Definition ModelNotFound (model : string) : exn :=
AudioConverterError ("Model not found: " ++ model).
Definition InvalidModelFile : exn :=
AudioConverterError "Invalid model file (must be .pth)".
Definition ConversionFailed (e : exn) : exn :=
AudioConverterError ("Conversion failed: " ++ str_exn e).

(* ================================================================== *)
(** ** Data *)

(** The [files] argument: [Union[str, List[str]]], or [None]. *)
Inductive files_arg : Type :=
| FilesNone
| FilesStr (s : string)
| FilesList (l : list string).

(** Python truthiness of the argument ([not files] is its negation). *)
Definition truthy (files : files_arg) : bool :=
match files with
| FilesNone => false
| FilesStr s => negb (s =? "")
| FilesList l => match l with [] => false | _ :: _ => true end
end.

(** The paths a non-empty argument stands for. *)
Definition paths_of (files : files_arg) : list string :=
match files with
| FilesNone => []
| FilesStr s => [s]
| FilesList l => l
end.

(** An entry of the registry [MODELS]: keys "model_name", "model", "index". *)
Record ModelEntry : Type := {
m_model_name : string;
m_model : string;
m_index : string
}.

(** The dictionary [config_params] built by [mainpipe]. *)
Record ConfigParams : Type := {
tag : string;
file_model : string;
pitch_algo : string;
pitch_lvl : float;
file_index : string;
index_influence : float;
respiration_median_filtering : bool;
envelope_ratio : float;
consonant_breath_protection : bool;
audio_files : list string
}.

(** The keyword arguments received by [converter.apply_conf]. *)
Record ConversionConfig : Type := {
params : ConfigParams;
resample_sr : Z
}.

(* ================================================================== *)
(** ** Environment, trace and monad *)

Section Pipeline.

(** [Result] is an element of the sequence the converter returns, and
    [Conv] the internal state of the converter object. *)
Context {Result Conv : Type}.

(** Calls that leave the module, in program order. *)
Inductive event : Type :=
| EvExists (file_path : string)
| EvGetDuration (filename : string)
| EvPrintDuration (duration_base : float)
| EvApplyConf (cfg : ConversionConfig)
| EvSleep
| EvConvert (files : list string) (random_tag : string)
            (overwrite : bool) (parallel_workers : Z)
| EvPrintResult (result : list Result).

Record pystate : Type := {
  trace : list event;
  conv : Conv
}.

(** What the module reads from outside.  [vc.py] imports neither
    [random] nor [librosa] and does not define [MODELS]: the three names
    are looked up in the module's globals when the call runs, and [None]
    is an unbound name.  [random] carries the entropy that the generator
    turns into the next draw.

    [path_exists p] says that [os.stat] succeeds on [p]; when it does not,
    [stat_error p] is the text of the [OSError] that [Path.exists] lets
    through (a name too long, a directory that may not be searched), and
    [None] when the error is one of those it turns into [False] (no such
    file).

    Standard output is a text stream that takes ASCII text.  For an
    element of the converter's result, [repr_error] is the text of the
    exception its [__repr__] raises and [encode_error] the text of the
    [UnicodeEncodeError] that writing its representation raises; [None]
    when there is none. *)
Record World : Type := {
  path_exists : string -> bool;
  stat_error : string -> option string;
  path_absolute : string -> string;
  librosa : option (string -> outcome float);
  random : option Z;
  MODELS : option (list ModelEntry);
  repr_error : Result -> option string;
  encode_error : Result -> option string
}.

(** The two capabilities used of a [BaseLoader]: [apply_conf] and
    [__call__]. *)
Record BaseLoader : Type := {
  apply_conf : ConversionConfig -> Conv -> outcome unit * Conv;
  call : list string -> string -> bool -> Z -> Conv -> outcome (list Result) * Conv
}.

Definition M (A : Type) : Type := pystate -> outcome A * pystate.

Definition ret {A : Type} (a : A) : M A := fun s => (Return a, s).

Definition raise {A : Type} (e : exn) : M A := fun s => (Raise e, s).

Definition bind {A B : Type} (m : M A) (k : A -> M B) : M B :=
  fun s =>
    match m s with
    | (Return a, s') => k a s'
    | (Raise e, s') => (Raise e, s')
    end.

Definition emit (ev : event) : M unit :=
  fun s => (Return tt, {| trace := (trace s ++ [ev])%list; conv := conv s |}).

(** [try: body / except Exception as e: handler e] *)
Definition try_except_Exception {A : Type} (body : M A) (handler : exn -> M A) : M A :=
  fun s =>
    match body s with
    | (Return a, s') => (Return a, s')
    | (Raise e, s') => if is_Exception e then handler e s' else (Raise e, s')
    end.

End Pipeline.

Arguments event : clear implicits.
Arguments World : clear implicits.
Arguments pystate : clear implicits.
Arguments BaseLoader : clear implicits.
Arguments M : clear implicits.

Declare Scope py_scope.
Delimit Scope py_scope with py.
Notation "x <- m ;; k" := (bind m (fun x => k))
(at level 61, m at next level, right associativity) : py_scope.
Notation "m ;; k" := (bind m (fun _ => k))
(at level 61, right associativity) : py_scope.
Open Scope py_scope.

(* ================================================================== *)
(** ** The functions of vc.py *)

Section VC.

Context {Result Conv : Type}.
Variable w : World Result.

Local Abbreviation M := (M Result Conv).

(** [Path(file_path).exists()]: [True] when [os.stat] succeeds, [False]
    when it fails for want of the file, and the [OSError] itself in the
    other cases. *)
Definition Path_exists (file_path : string) : M bool :=
  emit (EvExists file_path) ;;
  if path_exists w file_path
  then ret true
  else match stat_error w file_path with
       | Some msg => raise (ExternalError msg)
       | None => ret false
       end.

(** The [for] loop of [validate_audio_files]. *)
Fixpoint validate_loop (files valid_files : list string) : M (list string) :=
  match files with
  | [] => ret valid_files
  | file_path :: files' =>
      found <- Path_exists file_path ;;
      if negb found
      then raise (AudioConverterError ("Audio file not found: " ++ file_path))
      else validate_loop files' (valid_files ++ [path_absolute w file_path])%list
  end.

Definition validate_audio_files (files : files_arg) : M (list string) :=
  if negb (truthy files)
  then raise (AudioConverterError "No audio files provided")
  else
    let files := match files with
                 | FilesStr s => [s]
                 | FilesList l => l
                 | FilesNone => []   (* not reached: None is falsy *)
                 end in
    validate_loop files [].

(** [random.randint(a, b)]: [a] plus a number below [b - a + 1]. *)
Definition randint (a b entropy : Z) : Z := (a + entropy mod (b - a + 1))%Z.

Definition generate_random_tag : M string :=
  match random w with
  | None => raise (NameError "random")
  | Some entropy => ret ("USER_" ++ str_int (randint 10000000 99999999 entropy))
  end.

(** [l[0]] *)
Definition index0 {A : Type} (l : list A) : M A :=
  match l with
  | [] => raise (IndexError "list index out of range")
  | x :: _ => ret x
  end.

(** [converter.apply_conf], with [cfg] as its keyword arguments. *)
Definition call_apply_conf (converter : BaseLoader Result Conv)
           (cfg : ConversionConfig) : M unit :=
  fun s =>
    let (r, c) := apply_conf converter cfg (conv s) in
    (r, {| trace := (trace s ++ [EvApplyConf cfg])%list; conv := c |}).

Definition configure_converter (converter : BaseLoader Result Conv)
           (config_params : ConfigParams) : M unit :=
  first <- index0 (audio_files config_params) ;;
  let sample_rate := if endswith first ".mp3" then 44100%Z else 0%Z in
  call_apply_conf converter {| params := config_params; resample_sr := sample_rate |} ;;
  emit EvSleep.

(** [librosa.get_duration(filename=audio_files[0])] *)
Definition get_duration (audio_files : list string) : M float :=
  match librosa w with
  | None => raise (NameError "librosa")
  | Some probe =>
      filename <- index0 audio_files ;;
      emit (EvGetDuration filename) ;;
      match probe filename with
      | Return d => ret d
      | Raise e => raise e
      end
  end.

(** Lines 98-107 of [mainpipe]: the first entry of [MODELS] named
    [model], then the two checks on it. *)
Definition find_model_config (model : string) : M ModelEntry :=
  match MODELS w with
  | None => raise (NameError "MODELS")
  | Some models =>
      match find (fun m => m_model_name m =? model) models with
      | None => raise (AudioConverterError ("Model not found: " ++ model))
      | Some model_config =>
          if negb (endswith (m_model model_config) ".pth")
          then raise (AudioConverterError "Invalid model file (must be .pth)")
          else ret model_config
      end
  end.

(** [converter(audio_files, random_tag, overwrite=False, parallel_workers=8)] *)
Definition call_converter (converter : BaseLoader Result Conv)
           (audio_files : list string) (random_tag : string)
           (overwrite : bool) (parallel_workers : Z) : M (list Result) :=
  fun s =>
    let (r, c) := call converter audio_files random_tag overwrite parallel_workers (conv s) in
    (r, {| trace := trace s ++ [EvConvert audio_files random_tag overwrite parallel_workers];
           conv := c |}).

(** The first error among the elements of [l], in order. *)
Fixpoint first_error {A : Type} (f : A -> option string) (l : list A) : option string :=
  match l with
  | [] => None
  | x :: l' => match f x with
               | Some msg => Some msg
               | None => first_error f l'
               end
  end.

(** What stops [print(f"... {result}")]: the f-string first takes the
    representation of every element, in order, and the text is then
    written out. *)
Definition print_error (result : list Result) : option string :=
  match first_error (repr_error w) result with
  | Some msg => Some msg
  | None => first_error (encode_error w) result
  end.

(** [print(f"Conversion completed. Result: {result}")] *)
Definition print_result (result : list Result) : M unit :=
  match print_error result with
  | Some msg => raise (ExternalError msg)
  | None => emit (EvPrintResult result)
  end.

(** Lines 88-124 of [mainpipe]: every stage before the conversion.  The
    text printed for the duration is ASCII whatever the number. *)
Definition before_converting (model : string) (audio_files : files_arg)
           (pitch_alg : string) (pitch_lvl index_inf : float) (r_m_f : bool)
           (e_r : float) (c_b_p : bool) (converter : BaseLoader Result Conv)
  : M (list string * string) :=
  audio_files <- validate_audio_files audio_files ;;
  duration_base <- get_duration audio_files ;;
  emit (EvPrintDuration duration_base) ;;
  random_tag <- generate_random_tag ;;
  model_config <- find_model_config model ;;
  let config_params :=
    {| tag := random_tag;
       file_model := m_model model_config;
       pitch_algo := pitch_alg;
       pitch_lvl := pitch_lvl;
       file_index := m_index model_config;
       index_influence := index_inf;
       respiration_median_filtering := r_m_f;
       envelope_ratio := e_r;
       consonant_breath_protection := c_b_p;
       audio_files := audio_files |} in
  configure_converter converter config_params ;;
  ret (audio_files, random_tag).

(** The body of the [try] of [mainpipe]. *)
Definition mainpipe_body (model : string) (audio_files : files_arg)
           (pitch_alg : string) (pitch_lvl index_inf : float) (r_m_f : bool)
           (e_r : float) (c_b_p : bool) (converter : BaseLoader Result Conv)
  : M Result :=
  ready <- before_converting model audio_files pitch_alg pitch_lvl index_inf
                             r_m_f e_r c_b_p converter ;;
  let (audio_files, random_tag) := ready : list string * string in
  result <- call_converter converter audio_files random_tag false 8%Z ;;
  print_result result ;;
  index0 result.

Definition mainpipe (model : string) (audio_files : files_arg)
           (pitch_alg : string) (pitch_lvl index_inf : float) (r_m_f : bool)
           (e_r : float) (c_b_p : bool) (converter : BaseLoader Result Conv)
  : M Result :=
  try_except_Exception
    (mainpipe_body model audio_files pitch_alg pitch_lvl index_inf r_m_f e_r c_b_p converter)
    (fun e => raise (AudioConverterError ("Conversion failed: " ++ str_exn e))).

End VC.

(* ================================================================== *)
(** ** Reading a trace *)


(** The converter invocations of a trace, in order, with their four
    arguments. *)
Definition convert_calls {Result : Type} (t : list (event Result))
  : list (list string * string * bool * Z) :=
flat_map (fun ev => match ev with
                    | EvConvert files random_tag overwrite parallel_workers =>
                        [(files, random_tag, overwrite, parallel_workers)]
                    | _ => []
                    end) t.

(** The configurations handed to [apply_conf] in a trace, in order. *)
Definition applied_confs {Result : Type} (t : list (event Result)) : list ConversionConfig :=
flat_map (fun ev => match ev with EvApplyConf cfg => [cfg] | _ => [] end) t.

(** [e] is raised by one of the external collaborators: the duration
    probe, or one of the two operations of the converter. *)
Definition raised_outside {Result Conv : Type} (w : World Result)
           (converter : BaseLoader Result Conv) (e : exn) : Prop :=
(exists probe filename, librosa w = Some probe /\ probe filename = Raise e) \/
(exists cfg c c', apply_conf converter cfg c = (Raise e, c')) \/
(exists files random_tag overwrite parallel_workers c c',
    call converter files random_tag overwrite parallel_workers c = (Raise e, c')).

(** The keyword arguments [mainpipe] hands to [apply_conf] (lines 110-121
    and 51-52): the dictionary it builds from the tag, the model entry,
    the caller's five tuning parameters and the validated files, with the
    rate derived from [first], the first of those files. *)
Definition assembled_config (random_tag : string) (model_config : ModelEntry)
           (pitch_alg : string) (pitch_lvl index_inf : float) (r_m_f : bool)
           (e_r : float) (c_b_p : bool) (valid_files : list string)
           (first : string) : ConversionConfig :=
{| params :=
     {| tag := random_tag;
        file_model := m_model model_config;
        pitch_algo := pitch_alg;
        pitch_lvl := pitch_lvl;
        file_index := m_index model_config;
        index_influence := index_inf;
        respiration_median_filtering := r_m_f;
        envelope_ratio := e_r;
        consonant_breath_protection := c_b_p;
        audio_files := valid_files |};
   resample_sr := if endswith first ".mp3" then 44100%Z else 0%Z |}.

(** [isinstance(e, AudioConverterError)]: an error of the module's own. *)
Definition is_AudioConverterError (e : exn) : bool :=
match e with
| AudioConverterError _ => true
| _ => false
end.


(** [USER_] followed by exactly eight decimal digits whose value lies in
    10000000..99999999. *)
Definition tag_pattern (s : string) : bool :=
match strip_prefix "USER_" s with
| Some suffix =>
    (length suffix =? 8)%nat && all_digits suffix &&
    (10000000 <=? decimal_value suffix 0)%Z && (decimal_value suffix 0 <=? 99999999)%Z
| None => false
end.

(* ================================================================== *)
(** ** A concrete environment

    A POSIX file system with working directory [/srv/evc] holding three
    audio files, a registry of three models (two of them named [Y]), and
    converters whose state counts the calls they received. *)


(** The [OSError] of [os.stat] on a name of more than 255 characters. *)
Definition posix_stat_error (p : string) : option string :=
if (255 <? length p)%nat
then Some ("[Errno 36] File name too long: '" ++ p ++ "'")
else None.

(** The [UnicodeEncodeError] of an ASCII stream on a string that holds a
    character outside ASCII. *)
Fixpoint ascii_encode_error (r : string) : option string :=
match r with
| EmptyString => None
| String c r' =>
    if (nat_of_ascii c <? 128)%nat
    then ascii_encode_error r'
    else Some "'ascii' codec can't encode character: ordinal not in range(128)"
end.

(** POSIX [Path.is_absolute] *)
Definition is_absolute (p : string) : bool :=
match p with
| String "/" _ => true
| _ => false
end.

(** [str(Path(p).absolute())] under the working directory [cwd], for a
    path [p] that is in the form [Path] keeps (no [.] component, no
    doubled or trailing slash). *)
Definition posix_absolute (cwd p : string) : string :=
if is_absolute p then p else cwd ++ "/" ++ p.

Definition demo_MODELS : list ModelEntry :=
[ {| m_model_name := "Y"; m_model := "weights/Y.pth"; m_index := "weights/Y.index" |};
  {| m_model_name := "Z"; m_model := "weights.onnx"; m_index := "weights/Z.index" |};
  {| m_model_name := "Y"; m_model := "weights/Y2.onnx"; m_index := "weights/Y2.index" |} ].

Definition demo_world : World string :=
{| path_exists := fun p => (p =? "a.mp3") || (p =? "b.wav") || (p =? "/data/c.wav");
   stat_error := posix_stat_error;
   path_absolute := posix_absolute "/srv/evc";
   librosa := Some (fun _ => Return 2.5%float);
   random := Some 123456789%Z;
   MODELS := Some demo_MODELS;
   repr_error := fun _ => None;
   encode_error := ascii_encode_error |}.

(** [vc.py] as it stands, with the three names unbound. *)
Definition bare_world : World string :=
{| path_exists := path_exists demo_world;
   stat_error := stat_error demo_world;
   path_absolute := path_absolute demo_world;
   librosa := None;
   random := None;
   MODELS := None;
   repr_error := repr_error demo_world;
   encode_error := encode_error demo_world |}.

(** [librosa] bound, with no audio backend to decode the file. *)
Definition deaf_world : World string :=
{| path_exists := path_exists demo_world;
   stat_error := stat_error demo_world;
   path_absolute := path_absolute demo_world;
   librosa := Some (fun _ => Raise (ExternalError "NoBackendError"));
   random := random demo_world;
   MODELS := MODELS demo_world;
   repr_error := repr_error demo_world;
   encode_error := encode_error demo_world |}.

(** Returns one output name per input file. *)
Definition demo_converter : BaseLoader string nat :=
{| apply_conf := fun _ c => (Return tt, S c);
   call := fun files random_tag _ _ c =>
             (Return (map (fun f => random_tag ++ ":" ++ f) files), S c) |}.

(** Returns one output name, with a character outside ASCII in it. *)
Definition accented_converter : BaseLoader string nat :=
{| apply_conf := fun _ c => (Return tt, S c);
   call := fun _ random_tag _ _ c =>
             (Return [random_tag ++ ":caf" ++ String (ascii_of_nat 233) ".wav"], S c) |}.

(** Returns an empty sequence. *)
Definition silent_converter : BaseLoader string nat :=
{| apply_conf := fun _ c => (Return tt, S c);
   call := fun _ _ _ _ c => (Return [], S c) |}.


(** Fails while it converts. *)
Definition failing_converter : BaseLoader string nat :=
{| apply_conf := fun _ c => (Return tt, S c);
   call := fun _ _ _ _ c => (Raise (ExternalError "CUDA out of memory"), S c) |}.

(** The parameters [mainpipe] would assemble for [files]. *)
Definition demo_params (files : list string) : ConfigParams :=
{| tag := "USER_43456789";
   file_model := "weights/Y.pth";
   pitch_algo := "rmvpe";
   pitch_lvl := 0%float;
   file_index := "weights/Y.index";
   index_influence := 0.75%float;
   respiration_median_filtering := true;
   envelope_ratio := 0.25%float;
   consonant_breath_protection := true;
   audio_files := files |}.

Definition s0 : pystate string nat := {| trace := []; conv := 0%nat |}.

(** The stages before the conversion, on two existing files. *)
Definition demo_ready : outcome (list string * string) * pystate string nat :=
before_converting demo_world "Y" (FilesList ["a.mp3"; "b.wav"])
                  "rmvpe" 0%float 0.75%float true 0.25%float true demo_converter s0.

(** [mainpipe] on the concrete environment, the five tuning parameters
    fixed. *)
Definition demo_run (wd : World string) (model : string) (files : files_arg)
           (converter : BaseLoader string nat) : outcome string * pystate string nat :=
mainpipe wd model files "rmvpe" 0%float 0.75%float true 0.25%float true converter s0.

(* ================================================================== *)
(** * Properties *)

(** ** Decimal digits *)

Module DecimalFacts.

Local Open Scope Z_scope.

Lemma digit_char_code (d : Z) :
  0 <= d <= 9 -> nat_of_ascii (digit_char d) = (48 + Z.to_nat d)%nat.
Proof.
  intros Hd. unfold digit_char. apply nat_ascii_embedding. lia.
Qed.

Lemma digit_char_is_digit (d : Z) :
  0 <= d <= 9 -> is_digit (digit_char d) = true.
Proof.
  intros Hd. unfold is_digit. rewrite digit_char_code by assumption.
  apply andb_true_intro; split; apply Nat.leb_le; lia.
Qed.

Lemma digit_value_char (d : Z) :
  0 <= d <= 9 -> digit_value (digit_char d) = d.
Proof.
  intros Hd. unfold digit_value. rewrite digit_char_code by assumption. lia.
Qed.

Lemma append_assoc_one (ds : string) (c : ascii) (acc : string) :
  (ds ++ String c acc = (ds ++ String c "") ++ acc)%string.
Proof.
  induction ds as [| a ds IH]; simpl; [reflexivity | now rewrite IH].
Qed.

Lemma length_snoc (ds : string) (c : ascii) :
  length (ds ++ String c "") = S (length ds).
Proof.
  induction ds as [| a ds IH]; simpl; [reflexivity | now rewrite IH].
Qed.

Lemma all_digits_snoc (ds : string) (c : ascii) :
  all_digits ds = true -> is_digit c = true -> all_digits (ds ++ String c "") = true.
Proof.
  induction ds as [| a ds IH]; simpl; intros Hds Hc.
  - now rewrite Hc.
  - apply andb_prop in Hds. destruct Hds as [Ha Hds].
    rewrite Ha. simpl. now apply IH.
Qed.

Lemma decimal_value_snoc (ds : string) (c : ascii) (acc : Z) :
  decimal_value (ds ++ String c "") acc = 10 * decimal_value ds acc + digit_value c.
Proof.
  revert acc. induction ds as [| a ds IH]; simpl; intros acc; [reflexivity | apply IH].
Qed.

(** The digits written for [n] with enough fuel: all decimal, their value
    is [n], and their number [k] is the one with [10^(k-1) <= n < 10^k]
    (a single digit for 0). *)
Lemma digits_of_spec (fuel : nat) :
  forall (n : Z) (acc : string),
    0 <= n < 10 ^ Z.of_nat fuel ->
    (0 < fuel)%nat ->
    exists ds : string,
      digits_of fuel n acc = (ds ++ acc)%string /\
      all_digits ds = true /\
      decimal_value ds 0 = n /\
      n < 10 ^ Z.of_nat (length ds) /\
      (10 ^ Z.of_nat (length ds) <= 10 * n \/ n = 0) /\
      (1 <= length ds)%nat.
Proof.
  induction fuel as [| fuel IH]; intros n acc Hn Hfuel; [lia |].
  cbn [digits_of]. destruct (n <? 10) eqn:Hlt.
  - apply Z.ltb_lt in Hlt.
    assert (Hmod : n mod 10 = n) by (apply Z.mod_small; lia).
    exists (String (digit_char n) ""). rewrite Hmod. cbn [append length decimal_value all_digits].
    rewrite digit_char_is_digit, digit_value_char by lia.
    change (10 ^ Z.of_nat 1) with 10.
    repeat split; try reflexivity; try lia.
  - apply Z.ltb_ge in Hlt.
    assert (Hpow : 10 ^ Z.of_nat (S fuel) = 10 * 10 ^ Z.of_nat fuel).
    { rewrite Nat2Z.inj_succ. apply Z.pow_succ_r. lia. }
    assert (Hfuel' : (0 < fuel)%nat).
    { destruct fuel; [| lia]. change (10 ^ Z.of_nat 1) with 10 in Hn. lia. }
    assert (Hq : 0 <= n / 10 < 10 ^ Z.of_nat fuel).
    { split; [apply Z.div_pos; lia | apply Z.div_lt_upper_bound; lia]. }
    destruct (IH (n / 10) (String (digit_char (n mod 10)) acc) Hq Hfuel')
      as (ds & Heq & Hall & Hval & Hup & Hlow & Hlen).
    pose proof (Z.mod_pos_bound n 10 ltac:(lia)) as Hr.
    pose proof (Z.div_mod n 10 ltac:(lia)) as Hdm.
    exists (ds ++ String (digit_char (n mod 10)) "")%string.
    rewrite Heq, length_snoc, decimal_value_snoc, Hval, digit_value_char by lia.
    rewrite Nat2Z.inj_succ, Z.pow_succ_r by lia.
    repeat split.
    + apply append_assoc_one.
    + apply all_digits_snoc; [assumption | apply digit_char_is_digit; lia].
    + lia.
    + lia.
    + left. destruct Hlow as [Hlow | Hzero]; lia.
    + lia.
Qed.

(** The fuel [str_int] gives is enough. *)
Lemma log2_fuel_enough (n : Z) :
  0 <= n -> n < 10 ^ Z.of_nat (S (Z.to_nat (Z.log2 n))).
Proof.
  intros Hn.
  rewrite Nat2Z.inj_succ, Z2Nat.id by apply Z.log2_nonneg.
  destruct (Z.eq_dec n 0) as [-> | Hpos]; [reflexivity |].
  pose proof (Z.log2_spec n ltac:(lia)) as [_ Hup].
  pose proof (Z.log2_nonneg n) as Hlg.
  apply Z.lt_le_trans with (1 := Hup).
  apply Z.pow_le_mono_l. lia.
Qed.

(** [str(n)] for an eight-digit [n]: eight decimal digits whose value is [n]. *)
Lemma str_int_eight_digits (n : Z) :
  10000000 <= n <= 99999999 ->
  length (str_int n) = 8%nat /\
  all_digits (str_int n) = true /\
  decimal_value (str_int n) 0 = n.
Proof.
  intros Hn. unfold str_int.
  replace (n <? 0) with false by (symmetry; apply Z.ltb_ge; lia).
  destruct (digits_of_spec (S (Z.to_nat (Z.log2 n))) n ""
              ltac:(split; [lia | apply log2_fuel_enough; lia]) ltac:(lia))
    as (ds & Heq & Hall & Hval & Hup & Hlow & Hlen).
  rewrite Heq.
  assert (Hnil : (ds ++ "")%string = ds).
  { clear. induction ds as [| a ds IH]; simpl; [reflexivity | now rewrite IH]. }
  rewrite Hnil. repeat split; try assumption.
  destruct Hlow as [Hlow | Hzero]; [| lia].
  assert (H7 : 10 ^ 7 < 10 ^ Z.of_nat (length ds)) by (change (10 ^ 7) with 10000000; lia).
  assert (H9 : 10 ^ Z.of_nat (length ds) < 10 ^ 9) by (change (10 ^ 9) with 1000000000; lia).
  apply Z.pow_lt_mono_r_iff in H7; [| lia | lia].
  apply Z.pow_lt_mono_r_iff in H9; [| lia | lia].
  lia.
Qed.

Lemma randint_range (a b entropy : Z) :
  a <= b -> a <= randint a b entropy <= b.
Proof.
  intros Hab. unfold randint.
  pose proof (Z.mod_pos_bound entropy (b - a + 1) ltac:(lia)). lia.
Qed.

(** Every number of the range is a draw. *)
Lemma randint_onto (a b n : Z) :
  a <= n <= b -> randint a b (n - a) = n.
Proof.
  intros Hn. unfold randint. rewrite Z.mod_small; lia.
Qed.

End DecimalFacts.

(* ================================================================== *)
(** ** The input validator *)

Section ValidatorFacts.

Context {Result Conv : Type}.
Variable w : World Result.

Local Abbreviation state := (pystate Result Conv).
Local Abbreviation present := (fun p : string => path_exists w p = true).



(** The three answers of [Path.exists]. *)
Lemma Path_exists_present (p : string) (s : state) :
  path_exists w p = true ->
  Path_exists w p s =
    (Return true, {| trace := (trace s ++ [EvExists p])%list; conv := conv s |}).
Proof.
  intros Hp. unfold Path_exists, bind, emit. now rewrite Hp.
Qed.

Lemma Path_exists_missing (p : string) (s : state) :
  path_exists w p = false ->
  stat_error w p = None ->
  Path_exists w p s =
    (Return false, {| trace := (trace s ++ [EvExists p])%list; conv := conv s |}).
Proof.
  intros Hp Hstat. unfold Path_exists, bind, emit. now rewrite Hp, Hstat.
Qed.

Lemma Path_exists_fails (p msg : string) (s : state) :
  path_exists w p = false ->
  stat_error w p = Some msg ->
  Path_exists w p s =
    (Raise (ExternalError msg),
     {| trace := (trace s ++ [EvExists p])%list; conv := conv s |}).
Proof.
  intros Hp Hstat. unfold Path_exists, bind, emit. now rewrite Hp, Hstat.
Qed.

(** The loop over paths that all exist: one check per path, and the
    absolute paths appended in order. *)
Lemma validate_loop_all_exist (files : list string) :
  forall (valid_files : list string) (s : state),
    Forall present files ->
    validate_loop w files valid_files s =
      (Return (valid_files ++ map (path_absolute w) files)%list,
       {| trace := (trace s ++ map EvExists files)%list; conv := conv s |}).
Proof.
  induction files as [| p files IH]; intros valid_files s Hall.
  - destruct s as [t c]. simpl. unfold ret. now rewrite !app_nil_r.
  - inversion Hall as [| ? ? Hp Hrest]; subst.
    cbn [validate_loop]. unfold bind at 1.
    rewrite Path_exists_present by assumption.
    cbn [negb]. rewrite IH by assumption.
    cbn [trace conv map]. now rewrite <- !app_assoc.
Qed.

(** The loop stops at the first path that is not there, with what
    [Path.exists] gave on it: [False], or an [OSError]. *)
Lemma validate_loop_stops (pre : list string) :
  forall (q : string) (post valid_files : list string) (s : state),
    Forall present pre ->
    path_exists w q = false ->
    validate_loop w (pre ++ q :: post) valid_files s =
      (Raise (match stat_error w q with
              | None => FileNotFound q
              | Some msg => ExternalError msg
              end),
       {| trace := (trace s ++ map EvExists (pre ++ [q]))%list; conv := conv s |}).
Proof.
  induction pre as [| p pre IH]; intros q post valid_files s Hall Hq.
  - cbn [app validate_loop map]. unfold bind at 1.
    destruct (stat_error w q) as [msg |] eqn:Hstat.
    + now rewrite (Path_exists_fails q msg) by assumption.
    + now rewrite Path_exists_missing by assumption.
  - inversion Hall as [| ? ? Hp Hrest]; subst.
    cbn [app validate_loop]. unfold bind at 1.
    rewrite Path_exists_present by assumption.
    cbn [negb]. rewrite (IH q post) by assumption.
    cbn [trace conv map app]. now rewrite <- !app_assoc.
Qed.


(** A list with a missing path splits at its first missing path. *)
Lemma first_missing_split (l : list string) :
  (exists p, In p l /\ path_exists w p = false) ->
  exists (pre : list string) (q : string) (post : list string),
    l = (pre ++ q :: post)%list /\ Forall present pre /\ path_exists w q = false.
Proof.
  induction l as [| a l IH]; intros (p & Hin & Hp); [contradiction |].
  destruct (path_exists w a) eqn:Ha.
  - destruct Hin as [-> | Hin]; [congruence |].
    destruct (IH (ex_intro _ p (conj Hin Hp))) as (pre & q & post & -> & Hpre & Hq).
    exists (a :: pre), q, post. repeat split; [constructor |]; assumption.
  - exists [], a, l. repeat split; [constructor | assumption].
Qed.

(** A truthy argument is normalised to the list of its paths. *)
Lemma validate_truthy (files : files_arg) (s : state) :
  truthy files = true ->
  validate_audio_files w files s = validate_loop w (paths_of files) [] s.
Proof.
  intros Ht. unfold validate_audio_files. rewrite Ht. cbn [negb].
  destruct files; reflexivity.
Qed.

(** C5 -- a non-empty input, a single path or a sequence, whose paths all
    exist is returned as the sequence of its absolute paths: same length,
    same order, a single path as a one-element sequence; each path is
    checked once and the converter is left alone. *)
Theorem validate_audio_files_all_exist (files : files_arg) (s : state) :
  truthy files = true ->
  Forall present (paths_of files) ->
  exists valid_files : list string,
    validate_audio_files w files s =
      (Return valid_files,
       {| trace := (trace s ++ map EvExists (paths_of files))%list; conv := conv s |}) /\
    valid_files = map (path_absolute w) (paths_of files) /\
    List.length valid_files = List.length (paths_of files) /\
    (forall (i : nat) (p : string),
        nth_error (paths_of files) i = Some p ->
        nth_error valid_files i = Some (path_absolute w p)) /\
    (forall p : string, files = FilesStr p -> valid_files = [path_absolute w p]).
Proof.
  intros Ht Hall. exists (map (path_absolute w) (paths_of files)).
  rewrite validate_truthy by assumption.
  rewrite validate_loop_all_exist by assumption.
  repeat split.
  - apply length_map.
  - intros i p Hnth. now apply map_nth_error.
  - intros p ->. reflexivity.
Qed.



(** C10 -- the empty string is refused as a missing input, with "No audio
    files provided" and no look at the file system; the error is never
    the one of a path that was not found. *)
Theorem validate_audio_files_empty_string (s : state) :
  validate_audio_files w (FilesStr "") s =
    (Raise (AudioConverterError "No audio files provided"), s) /\
  (forall p : string,
      fst (validate_audio_files w (FilesStr "") s) <> Raise (FileNotFound p)).
Proof.
  split; [reflexivity |].
  intros p. cbn. unfold FileNotFound. cbn. discriminate.
Qed.

End ValidatorFacts.

(* ================================================================== *)
(** ** The tag generator *)

Section TagFacts.

Context {Result Conv : Type}.
Variable w : World Result.

Local Abbreviation state := (pystate Result Conv).

(** With [random] bound the generator returns, and leaves the state alone. *)
Lemma generate_random_tag_returns (entropy : Z) (s : state) :
  random w = Some entropy ->
  generate_random_tag w s =
    (Return ("USER_" ++ str_int (randint 10000000 99999999 entropy)), s).
Proof.
  intros Hr. unfold generate_random_tag. now rewrite Hr.
Qed.

(** C7 -- every string the tag generator returns is [USER_] followed by
    exactly eight decimal digits, the decimal writing of a number between
    10000000 and 99999999, whatever the random source draws. *)
Theorem generate_random_tag_pattern (s s' : state) (t : string) :
  generate_random_tag w s = (Return t, s') ->
  tag_pattern t = true /\
  exists n : Z,
    (10000000 <= n <= 99999999)%Z /\
    t = "USER_" ++ str_int n /\
    length (str_int n) = 8%nat /\
    all_digits (str_int n) = true /\
    decimal_value (str_int n) 0 = n.
Proof.
  unfold generate_random_tag. destruct (random w) as [entropy |]; [| discriminate].
  pose proof (DecimalFacts.randint_range 10000000 99999999 entropy ltac:(lia)) as Hn.
  set (n := randint 10000000 99999999 entropy) in *. clearbody n.
  destruct (DecimalFacts.str_int_eight_digits n Hn) as (Hlen & Hall & Hval).
  assert (Hpat : tag_pattern ("USER_" ++ str_int n) = true).
  { unfold tag_pattern.
    replace (strip_prefix "USER_" ("USER_" ++ str_int n)) with (Some (str_int n))
      by (generalize (str_int n); reflexivity).
    rewrite Hlen, Hall, Hval. cbn [Nat.eqb andb].
    apply andb_true_intro; split; apply Z.leb_le; lia. }
  remember (str_int n) as digits eqn:Hdigits in *.
  intros Heq. unfold ret in Heq. injection Heq as <- _.
  split; [exact Hpat |].
  exists n. rewrite <- Hdigits. repeat split; try assumption; lia.
Qed.

End TagFacts.

(* ================================================================== *)
(** ** The model resolver *)

Section ModelFacts.

Context {Result Conv : Type}.
Variable w : World Result.

Local Abbreviation state := (pystate Result Conv).

(** [find] by name returns nothing exactly when no name matches, and
    otherwise the entry in front of which no name matches. *)
Lemma find_by_name (model : string) (models : list ModelEntry) :
  (find (fun m => m_model_name m =? model) models = None /\
   forall m, In m models -> m_model_name m <> model) \/
  (exists (pre : list ModelEntry) (model_config : ModelEntry) (post : list ModelEntry),
      find (fun m => m_model_name m =? model) models = Some model_config /\
      models = (pre ++ model_config :: post)%list /\
      (forall m, In m pre -> m_model_name m <> model) /\
      m_model_name model_config = model).
Proof.
  induction models as [| a models IH]; [left; split; [reflexivity | contradiction] |].
  cbn [find]. destruct (m_model_name a =? model) eqn:Ha.
  - right. exists [], a, models. apply String.eqb_eq in Ha.
    repeat split; [contradiction | assumption].
  - apply String.eqb_neq in Ha.
    destruct IH as [[Hnone Hall] | (pre & mc & post & Hfind & -> & Hpre & Hname)].
    + left. split; [assumption |]. intros m [<- | Hin]; auto.
    + right. exists (a :: pre), mc, post. repeat split; try assumption.
      intros m [<- | Hin]; auto.
Qed.

(** C3 -- for every name and registry: when no entry bears the name the
    resolver raises "Model not found: " followed by the name; otherwise it
    looks at the first entry bearing the name and at no other, returns it
    when its weights path ends in ".pth", and raises "Invalid model file
    (must be .pth)" when it does not. *)
Theorem find_model_config_first_match (models : list ModelEntry) (model : string) (s : state) :
  MODELS w = Some models ->
  ((forall m, In m models -> m_model_name m <> model) /\
   find_model_config w model s = (Raise (ModelNotFound model), s) /\
   str_exn (ModelNotFound model) = "Model not found: " ++ model) \/
  (exists (pre : list ModelEntry) (model_config : ModelEntry) (post : list ModelEntry),
      models = (pre ++ model_config :: post)%list /\
      (forall m, In m pre -> m_model_name m <> model) /\
      m_model_name model_config = model /\
      if endswith (m_model model_config) ".pth"
      then find_model_config w model s = (Return model_config, s)
      else find_model_config w model s = (Raise InvalidModelFile, s)).
Proof.
  intros HM. unfold find_model_config. rewrite HM.
  destruct (find_by_name model models)
    as [[Hnone Hall] | (pre & mc & post & Hfind & Heq & Hpre & Hname)].
  - left. rewrite Hnone. repeat split. assumption.
  - right. exists pre, mc, post. rewrite Hfind.
    repeat split; try assumption.
    destruct (endswith (m_model mc) ".pth"); reflexivity.
Qed.

End ModelFacts.

(* ================================================================== *)
(** ** Traces of the stages *)

Section TraceFacts.

Context {Result : Type}.

Lemma convert_calls_app (t1 t2 : list (event Result)) :
  convert_calls (t1 ++ t2) = (convert_calls t1 ++ convert_calls t2)%list.
Proof.
  unfold convert_calls. apply flat_map_app.
Qed.

Lemma convert_calls_exists (l : list string) :
  convert_calls (map (@EvExists Result) l) = [].
Proof.
  induction l as [| p l IH]; [reflexivity | exact IH].
Qed.

Lemma applied_confs_app (t1 t2 : list (event Result)) :
  applied_confs (t1 ++ t2) = (applied_confs t1 ++ applied_confs t2)%list.
Proof.
  unfold applied_confs. apply flat_map_app.
Qed.

Lemma applied_confs_exists (l : list string) :
  applied_confs (map (@EvExists Result) l) = [].
Proof.
  induction l as [| p l IH]; [reflexivity | exact IH].
Qed.

End TraceFacts.

Create Rewrite HintDb trace_db.
#[local] Hint Rewrite @convert_calls_app @convert_calls_exists
  @applied_confs_app @applied_confs_exists @length_app @app_nil_r : trace_db.

(** Runs the operations of the monad. *)
Ltac run :=
  cbn beta iota zeta delta [ret raise emit index0 negb fst snd trace conv is_Exception str_exn].

(** Runs the operations of the monad on the state at hand. *)
Ltac exec :=
  cbv beta iota zeta delta [emit ret raise index0 negb is_Exception];
  cbn [trace conv].

(** Brings a trace to the form [initial ++ checks ++ events]. *)
Ltac flatten_trace := rewrite <- ?app_assoc; cbn [app].

(** Reads the calls off a trace made of the initial trace and a few
    events. *)
Ltac read_trace :=
  run;
  autorewrite with trace_db;
  cbn [convert_calls applied_confs flat_map app List.length];
  autorewrite with trace_db.

(* ================================================================== *)
(** ** The configuration assembler *)

Section ConfigureFacts.

Context {Result Conv : Type}.
Variable converter : BaseLoader Result Conv.

Local Abbreviation state := (pystate Result Conv).

(** C4 -- the resample rate handed to [apply_conf] is read off the first
    audio file alone: 44100 when its path ends in ".mp3", 0 otherwise,
    whatever files follow it; [apply_conf] receives the parameters with
    that rate, once. *)
Theorem configure_converter_resample_rate (config_params : ConfigParams)
        (first : string) (rest : list string) (s : state) :
  audio_files config_params = first :: rest ->
  applied_confs (trace (snd (configure_converter converter config_params s))) =
    (applied_confs (trace s) ++
     [ {| params := config_params;
          resample_sr := if endswith first ".mp3" then 44100%Z else 0%Z |} ])%list /\
  (endswith first ".mp3" = true ->
   map resample_sr (applied_confs (trace (snd (configure_converter converter config_params s)))) =
     (map resample_sr (applied_confs (trace s)) ++ [44100%Z])%list) /\
  (endswith first ".mp3" = false ->
   map resample_sr (applied_confs (trace (snd (configure_converter converter config_params s)))) =
     (map resample_sr (applied_confs (trace s)) ++ [0%Z])%list).
Proof.
  intros Hfiles.
  assert (Hmain :
    applied_confs (trace (snd (configure_converter converter config_params s))) =
      (applied_confs (trace s) ++
       [ {| params := config_params;
            resample_sr := if endswith first ".mp3" then 44100%Z else 0%Z |} ])%list).
  { unfold configure_converter. rewrite Hfiles.
    unfold bind, index0, ret, call_apply_conf, emit. cbn beta zeta.
    match goal with
    | |- context [apply_conf converter ?cfg ?c] =>
        destruct (apply_conf converter cfg c) as [[[] | e] c']
    end; read_trace; reflexivity. }
  split; [exact Hmain |].
  split; intros Hext; rewrite Hmain, map_app, Hext; reflexivity.
Qed.

End ConfigureFacts.

(* ================================================================== *)
(** ** The orchestrator *)

Section MainpipeFacts.

Context {Result Conv : Type}.
Variable w : World Result.
Variable converter : BaseLoader Result Conv.

Local Abbreviation state := (pystate Result Conv).
Local Abbreviation present := (fun p : string => path_exists w p = true).

(** The three ways validation ends. *)
Lemma validate_audio_files_cases (files : files_arg) (s : state) :
  (truthy files = false /\
   validate_audio_files w files s = (Raise InvalidInput, s)) \/
  (exists (pre : list string) (q : string) (post : list string),
      truthy files = true /\
      paths_of files = (pre ++ q :: post)%list /\
      Forall present pre /\ path_exists w q = false /\
      validate_audio_files w files s =
        (Raise (match stat_error w q with
                | None => FileNotFound q
                | Some msg => ExternalError msg
                end),
         {| trace := (trace s ++ map EvExists (pre ++ [q]))%list; conv := conv s |})) \/
  (exists (first : string) (rest : list string),
      truthy files = true /\
      paths_of files = first :: rest /\
      Forall present (paths_of files) /\
      validate_audio_files w files s =
        (Return (map (path_absolute w) (paths_of files)),
         {| trace := (trace s ++ map EvExists (paths_of files))%list; conv := conv s |})).
Proof.
  destruct (truthy files) eqn:Ht.
  - right. rewrite validate_truthy by assumption.
    destruct (forallb (path_exists w) (paths_of files)) eqn:Hall.
    + right.
      assert (Hpresent : Forall present (paths_of files)).
      { apply Forall_forall. intros p Hin.
        exact (proj1 (forallb_forall _ _) Hall p Hin). }
      destruct (paths_of files) as [| first rest] eqn:Hp.
      * destruct files as [| str | [| a l]]; cbn in Ht, Hp; discriminate.
      * exists first, rest. rewrite validate_loop_all_exist by assumption.
        repeat split; assumption.
    + left.
      assert (Hmissing : exists p, In p (paths_of files) /\ path_exists w p = false).
      { clear Ht. induction (paths_of files) as [| a l IH]; [discriminate |].
        cbn [forallb] in Hall. destruct (path_exists w a) eqn:Ha.
        - destruct (IH Hall) as (p & Hin & Hp). exists p. split; [now right | assumption].
        - exists a. split; [now left | assumption]. }
      destruct (first_missing_split w _ Hmissing) as (pre & q & post & Heq & Hpre & Hq).
      exists pre, q, post. rewrite Heq, validate_loop_stops by assumption.
      repeat split; assumption.
  - left. split; [reflexivity |]. unfold validate_audio_files. now rewrite Ht.
Qed.

(** The stages before the conversion: they never invoke the converter,
    configure it at most once, return the absolute paths of the input with
    the tag drawn for the run, and raise either an exception deriving from
    [Exception] or one that an external collaborator raised. *)
Lemma before_converting_run (model : string) (files : files_arg)
      (pitch_alg : string) (pitch_lvl index_inf : float) (r_m_f : bool)
      (e_r : float) (c_b_p : bool) (s : state) :
  let r := before_converting w model files pitch_alg pitch_lvl index_inf
                             r_m_f e_r c_b_p converter s in
  convert_calls (trace (snd r)) = convert_calls (trace s) /\
  (List.length (applied_confs (trace (snd r))) <=
     List.length (applied_confs (trace s)) + 1)%nat /\
  match fst r with
  | Return (valid_files, random_tag) =>
      truthy files = true /\
      valid_files = map (path_absolute w) (paths_of files) /\
      exists entropy : Z,
        random w = Some entropy /\
        random_tag = "USER_" ++ str_int (randint 10000000 99999999 entropy)
  | Raise e => is_Exception e = true \/ raised_outside w converter e
  end.
Proof.
  intros r. subst r.
  unfold before_converting, get_duration, generate_random_tag, find_model_config,
    configure_converter, call_apply_conf, bind.
  destruct (validate_audio_files_cases files s)
    as [[Ht Hv] | [(pre & q & post & Ht & Hp & Hpre & Hq & Hv)
                  | (first & rest & Ht & Hp & Hall & Hv)]]; rewrite Hv.
  - read_trace. repeat split; [lia | now left].
  - read_trace. repeat split; [lia |]. left. now destruct (stat_error w q).
  - assert (Hvf : map (path_absolute w) (paths_of files) =
                  path_absolute w first :: map (path_absolute w) rest)
      by (rewrite Hp; reflexivity).
    rewrite Hvf. cbn [audio_files].
    destruct (librosa w) as [probe |] eqn:Hl;
      [| read_trace; repeat split; [lia | now left]].
    run. destruct (probe (path_absolute w first)) as [d | e] eqn:Hprobe.
    2:{ read_trace. repeat split; [lia |].
        destruct (is_Exception e) eqn:He; [now left | right; left].
        exists probe, (path_absolute w first). now split. }
    run.
    destruct (random w) as [entropy |] eqn:Hr;
      [| read_trace; repeat split; [lia | now left]].
    run.
    destruct (MODELS w) as [models |];
      [| read_trace; repeat split; [lia | now left]].
    run.
    destruct (find _ models) as [model_config |];
      [| read_trace; repeat split; [lia | now left]].
    run.
    destruct (endswith (m_model model_config) ".pth");
      [| read_trace; repeat split; [lia | now left]].
    run.
    match goal with
    | |- context [apply_conf converter ?cfg ?c] =>
        destruct (apply_conf converter cfg c) as [[[] | e] c'] eqn:Hconf
    end.
    + read_trace. repeat split; [lia | assumption |].
      exists entropy. now split.
    + read_trace. repeat split; [lia |].
      destruct (is_Exception e) eqn:He; [now left | right; right; left].
      eexists _, _, _. exact Hconf.
Qed.

(** After the earlier stages returned, the run is what the call of the
    converter and the print of its result make it. *)
Lemma mainpipe_after_ready (model : string) (files : files_arg)
      (pitch_alg : string) (pitch_lvl index_inf : float) (r_m_f : bool)
      (e_r : float) (c_b_p : bool) (s s1 : state)
      (valid_files : list string) (random_tag : string) :
  before_converting w model files pitch_alg pitch_lvl index_inf
                    r_m_f e_r c_b_p converter s = (Return (valid_files, random_tag), s1) ->
  mainpipe w model files pitch_alg pitch_lvl index_inf r_m_f e_r c_b_p converter s =
    match call converter valid_files random_tag false 8%Z (conv s1) with
    | (Return result, c) =>
        match print_error w result with
        | Some msg =>
            (Raise (AudioConverterError ("Conversion failed: " ++ msg)),
             {| trace := (trace s1 ++ [EvConvert valid_files random_tag false 8%Z])%list;
                conv := c |})
        | None =>
            (match result with
             | r :: _ => Return r
             | [] => Raise (AudioConverterError "Conversion failed: list index out of range")
             end,
             {| trace := (trace s1 ++ [EvConvert valid_files random_tag false 8%Z;
                                       EvPrintResult result])%list;
                conv := c |})
        end
    | (Raise e, c) =>
        (if is_Exception e
         then Raise (AudioConverterError ("Conversion failed: " ++ str_exn e))
         else Raise e,
         {| trace := (trace s1 ++ [EvConvert valid_files random_tag false 8%Z])%list;
            conv := c |})
    end.
Proof.
  intros Hbefore.
  unfold mainpipe, try_except_Exception, mainpipe_body, bind.
  rewrite Hbefore. unfold call_converter, print_result.
  destruct (call converter valid_files random_tag false 8%Z (conv s1))
    as [[result | e] c].
  - destruct (print_error w result) as [msg |]; exec; [reflexivity |].
    destruct result as [| r rest]; exec; flatten_trace; reflexivity.
  - exec. destruct e; reflexivity.
Qed.

(** After an earlier stage raised, the run ends where that stage
    stopped. *)
Lemma mainpipe_after_failure (model : string) (files : files_arg)
      (pitch_alg : string) (pitch_lvl index_inf : float) (r_m_f : bool)
      (e_r : float) (c_b_p : bool) (s s1 : state) (e : exn) :
  before_converting w model files pitch_alg pitch_lvl index_inf
                    r_m_f e_r c_b_p converter s = (Raise e, s1) ->
  mainpipe w model files pitch_alg pitch_lvl index_inf r_m_f e_r c_b_p converter s =
    (if is_Exception e
     then Raise (AudioConverterError ("Conversion failed: " ++ str_exn e))
     else Raise e, s1).
Proof.
  intros Hbefore.
  unfold mainpipe, try_except_Exception, mainpipe_body, bind.
  rewrite Hbefore. destruct e; reflexivity.
Qed.

(** The body of [mainpipe] after the earlier stages returned. *)
Lemma mainpipe_body_after_ready (model : string) (files : files_arg)
      (pitch_alg : string) (pitch_lvl index_inf : float) (r_m_f : bool)
      (e_r : float) (c_b_p : bool) (s s1 : state)
      (valid_files : list string) (random_tag : string) :
  before_converting w model files pitch_alg pitch_lvl index_inf
                    r_m_f e_r c_b_p converter s = (Return (valid_files, random_tag), s1) ->
  mainpipe_body w model files pitch_alg pitch_lvl index_inf r_m_f e_r c_b_p converter s =
    match call converter valid_files random_tag false 8%Z (conv s1) with
    | (Return result, c) =>
        match print_error w result with
        | Some msg =>
            (Raise (ExternalError msg),
             {| trace := (trace s1 ++ [EvConvert valid_files random_tag false 8%Z])%list;
                conv := c |})
        | None =>
            (match result with
             | r :: _ => Return r
             | [] => Raise (IndexError "list index out of range")
             end,
             {| trace := (trace s1 ++ [EvConvert valid_files random_tag false 8%Z;
                                       EvPrintResult result])%list;
                conv := c |})
        end
    | (Raise e, c) =>
        (Raise e,
         {| trace := (trace s1 ++ [EvConvert valid_files random_tag false 8%Z])%list;
            conv := c |})
    end.
Proof.
  intros Hbefore.
  unfold mainpipe_body, bind.
  rewrite Hbefore. unfold call_converter, print_result.
  destruct (call converter valid_files random_tag false 8%Z (conv s1))
    as [[result | e] c]; [| reflexivity].
  destruct (print_error w result) as [msg |]; exec; [reflexivity |].
  destruct result as [| r rest]; exec; flatten_trace; reflexivity.
Qed.

(** C8 -- a run whose earlier stages all succeed invokes the converter
    exactly once, on the absolute paths returned by validation, with the
    tag drawn for the run, [overwrite=False] and [parallel_workers=8]: the
    trace holds that one invocation, the converter is left in the state
    that this call, made on the state the configuration left, gave it, and
    what the caller receives comes from what this call gave.  A run that
    fails earlier does not invoke it. *)
Theorem mainpipe_invokes_converter_once (model : string) (files : files_arg)
        (pitch_alg : string) (pitch_lvl index_inf : float) (r_m_f : bool)
        (e_r : float) (c_b_p : bool) (s : state) :
  match before_converting w model files pitch_alg pitch_lvl index_inf
                          r_m_f e_r c_b_p converter s with
  | (Return (valid_files, random_tag), s1) =>
      convert_calls (trace (snd (mainpipe w model files pitch_alg pitch_lvl index_inf
                                          r_m_f e_r c_b_p converter s))) =
        (convert_calls (trace s) ++ [(valid_files, random_tag, false, 8%Z)])%list /\
      conv (snd (mainpipe w model files pitch_alg pitch_lvl index_inf
                          r_m_f e_r c_b_p converter s)) =
        snd (call converter valid_files random_tag false 8%Z (conv s1)) /\
      match fst (call converter valid_files random_tag false 8%Z (conv s1)) with
      | Return result =>
          forall r : Result,
            fst (mainpipe w model files pitch_alg pitch_lvl index_inf
                          r_m_f e_r c_b_p converter s) = Return r ->
            hd_error result = Some r
      | Raise e =>
          fst (mainpipe w model files pitch_alg pitch_lvl index_inf
                        r_m_f e_r c_b_p converter s) =
            if is_Exception e
            then Raise (AudioConverterError ("Conversion failed: " ++ str_exn e))
            else Raise e
      end /\
      valid_files = map (path_absolute w) (paths_of files) /\
      exists entropy : Z,
        random w = Some entropy /\
        random_tag = "USER_" ++ str_int (randint 10000000 99999999 entropy)
  | (Raise _, s1) =>
      convert_calls (trace (snd (mainpipe w model files pitch_alg pitch_lvl index_inf
                                          r_m_f e_r c_b_p converter s))) =
        convert_calls (trace s) /\
      conv (snd (mainpipe w model files pitch_alg pitch_lvl index_inf
                          r_m_f e_r c_b_p converter s)) = conv s1
  end.
Proof.
  pose proof (before_converting_run model files pitch_alg pitch_lvl index_inf
                                    r_m_f e_r c_b_p s) as (Hcalls & _ & Hres).
  destruct (before_converting w model files pitch_alg pitch_lvl index_inf
                              r_m_f e_r c_b_p converter s)
    as [[[valid_files random_tag] | e] s1] eqn:Hbefore; cbn [fst snd] in Hcalls, Hres.
  - destruct Hres as (_ & Hvf & Htag).
    rewrite (mainpipe_after_ready _ _ _ _ _ _ _ _ _ _ _ _ Hbefore).
    destruct (call converter valid_files random_tag false 8%Z (conv s1))
      as [[result | e] c]; cbn [fst snd].
    + destruct (print_error w result) as [msg |]; read_trace; rewrite Hcalls;
        (repeat split; try assumption; try reflexivity).
      * intros r Hr. discriminate.
      * intros r Hr. destruct result as [| r' rest]; [discriminate |].
        injection Hr as ->. reflexivity.
    + read_trace. rewrite Hcalls. repeat split; try assumption; reflexivity.
  - rewrite (mainpipe_after_failure _ _ _ _ _ _ _ _ _ _ _ Hbefore).
    read_trace. split; [exact Hcalls | reflexivity].
Qed.

(** C2, as the code has it -- when the converter returns a non-empty
    sequence that prints, the caller receives its first element unchanged;
    when printing the sequence raises, the caller receives that error
    wrapped as "Conversion failed: ..." instead; when the converter
    returns an empty sequence, taking the first element raises the
    interpreter's [IndexError], which the caller receives wrapped as
    "Conversion failed: list index out of range". *)
Theorem mainpipe_first_result (model : string) (files : files_arg)
        (pitch_alg : string) (pitch_lvl index_inf : float) (r_m_f : bool)
        (e_r : float) (c_b_p : bool) (s s1 : state)
        (valid_files : list string) (random_tag : string)
        (result : list Result) (c : Conv) :
  before_converting w model files pitch_alg pitch_lvl index_inf
                    r_m_f e_r c_b_p converter s = (Return (valid_files, random_tag), s1) ->
  call converter valid_files random_tag false 8%Z (conv s1) = (Return result, c) ->
  (forall (r : Result) (rest : list Result),
      result = r :: rest ->
      print_error w result = None ->
      fst (mainpipe w model files pitch_alg pitch_lvl index_inf
                    r_m_f e_r c_b_p converter s) = Return r) /\
  (forall msg : string,
      print_error w result = Some msg ->
      fst (mainpipe w model files pitch_alg pitch_lvl index_inf
                    r_m_f e_r c_b_p converter s) =
        Raise (AudioConverterError ("Conversion failed: " ++ msg))) /\
  (result = [] ->
   fst (mainpipe_body w model files pitch_alg pitch_lvl index_inf
                      r_m_f e_r c_b_p converter s) =
     Raise (IndexError "list index out of range") /\
   fst (mainpipe w model files pitch_alg pitch_lvl index_inf
                 r_m_f e_r c_b_p converter s) =
     Raise (AudioConverterError "Conversion failed: list index out of range")).
Proof.
  intros Hbefore Hcall.
  rewrite (mainpipe_after_ready _ _ _ _ _ _ _ _ _ _ _ _ Hbefore).
  rewrite (mainpipe_body_after_ready _ _ _ _ _ _ _ _ _ _ _ _ Hbefore).
  rewrite Hcall.
  repeat split.
  - intros r rest -> Hprint. now rewrite Hprint.
  - intros msg Hprint. now rewrite Hprint.
  - subst result. reflexivity.
  - subst result. reflexivity.
Qed.


End MainpipeFacts.

(* ================================================================== *)
(** ** Concrete runs *)

Local Open Scope float_scope.

(** Valid single file, valid model: the first element of what the
    converter returned. *)
Example run_success :
  fst (demo_run demo_world "Y" (FilesStr "b.wav") demo_converter) =
    Return "USER_43456789:/srv/evc/b.wav".
Proof. vm_compute. reflexivity. Qed.

(** A model that the registry does not hold. *)
Example run_model_not_found :
  fst (demo_run demo_world "X" (FilesStr "b.wav") demo_converter) =
    Raise (AudioConverterError "Conversion failed: Model not found: X").
Proof. vm_compute. reflexivity. Qed.

(** A model whose weights are not a [.pth] file. *)
Example run_invalid_model_file :
  fst (demo_run demo_world "Z" (FilesStr "b.wav") demo_converter) =
    Raise (AudioConverterError "Conversion failed: Invalid model file (must be .pth)").
Proof. vm_compute. reflexivity. Qed.

(** A converter that fails. *)
Example run_converter_fails :
  fst (demo_run demo_world "Y" (FilesStr "b.wav") failing_converter) =
    Raise (AudioConverterError "Conversion failed: CUDA out of memory").
Proof. vm_compute. reflexivity. Qed.

(** The module as it stands: [librosa] is not bound when the duration is
    probed. *)
Example run_bare_module :
  fst (demo_run bare_world "Y" (FilesStr "b.wav") demo_converter) =
    Raise (AudioConverterError "Conversion failed: name 'librosa' is not defined").
Proof. vm_compute. reflexivity. Qed.

(** Rate 0 when only a later file is an mp3. *)
Example rate_wav_then_mp3 :
  map resample_sr
      (applied_confs
         (trace (snd (configure_converter demo_converter
                                          (demo_params ["a.wav"; "b.mp3"]) s0)))) = [0%Z].
Proof. vm_compute. reflexivity. Qed.


(** C2 fails on the code in both halves.  On an empty result the body
    of [mainpipe] raises the interpreter's [IndexError], not an error of
    the module, and the caller receives it wrapped like any other
    failure.  On a non-empty result that standard output cannot take, the
    print that precedes the [return] raises, and the caller receives that
    error wrapped instead of the first element. *)
Lemma result_extraction_as_claimed_fails :
  fst (mainpipe_body demo_world "Y" (FilesStr "b.wav") "rmvpe" 0 0.75 true 0.25 true
                     silent_converter s0) =
    Raise (IndexError "list index out of range") /\
  is_AudioConverterError (IndexError "list index out of range") = false /\
  fst (demo_run demo_world "Y" (FilesStr "b.wav") silent_converter) =
    Raise (AudioConverterError "Conversion failed: list index out of range") /\
  fst (call accented_converter ["/srv/evc/b.wav"] "USER_43456789" false 8%Z 1%nat) =
    Return ["USER_43456789:caf" ++ String (ascii_of_nat 233) ".wav"] /\
  fst (demo_run demo_world "Y" (FilesStr "b.wav") accented_converter) =
    Raise (AudioConverterError
             "Conversion failed: 'ascii' codec can't encode character: ordinal not in range(128)").
Proof. repeat split; vm_compute; reflexivity. Qed.


(** *** Instances of the theorems *)

Lemma mainpipe_first_result_witness :
  fst (demo_run demo_world "Y" (FilesList ["a.mp3"; "b.wav"]) demo_converter) =
    Return "USER_43456789:/srv/evc/a.mp3".
Proof.
  assert (Hbefore :
    before_converting demo_world "Y" (FilesList ["a.mp3"; "b.wav"])
                      "rmvpe" 0 0.75 true 0.25 true demo_converter s0 =
      (Return (["/srv/evc/a.mp3"; "/srv/evc/b.wav"], "USER_43456789"), snd demo_ready))
    by (vm_compute; reflexivity).
  assert (Hcall :
    call demo_converter ["/srv/evc/a.mp3"; "/srv/evc/b.wav"] "USER_43456789" false 8%Z
         (conv (snd demo_ready)) =
      (Return ["USER_43456789:/srv/evc/a.mp3"; "USER_43456789:/srv/evc/b.wav"], 2%nat))
    by (vm_compute; reflexivity).
  exact (proj1 (mainpipe_first_result demo_world demo_converter "Y"
                  (FilesList ["a.mp3"; "b.wav"]) "rmvpe" 0 0.75 true 0.25 true
                  s0 _ _ _ _ _ Hbefore Hcall)
               _ _ eq_refl ltac:(vm_compute; reflexivity)).
Defined.

Lemma mainpipe_invokes_converter_once_witness :
  convert_calls
    (trace (snd (demo_run demo_world "Y" (FilesList ["a.mp3"; "b.wav"]) demo_converter))) =
    [(["/srv/evc/a.mp3"; "/srv/evc/b.wav"], "USER_43456789", false, 8%Z)] /\
  conv (snd (demo_run demo_world "Y" (FilesList ["a.mp3"; "b.wav"]) demo_converter)) =
    snd (call demo_converter ["/srv/evc/a.mp3"; "/srv/evc/b.wav"] "USER_43456789"
              false 8%Z (conv (snd demo_ready))).
Proof.
  assert (Hbefore :
    before_converting demo_world "Y" (FilesList ["a.mp3"; "b.wav"])
                      "rmvpe" 0 0.75 true 0.25 true demo_converter s0 =
      (Return (["/srv/evc/a.mp3"; "/srv/evc/b.wav"], "USER_43456789"), snd demo_ready))
    by (vm_compute; reflexivity).
  pose proof (mainpipe_invokes_converter_once demo_world demo_converter "Y"
                (FilesList ["a.mp3"; "b.wav"]) "rmvpe" 0 0.75 true 0.25 true s0) as Honce.
  rewrite Hbefore in Honce. destruct Honce as (Hcalls & Hconv & _).
  split; [exact Hcalls | exact Hconv].
Defined.

Lemma validate_audio_files_all_exist_witness :
  truthy (FilesList ["a.mp3"; "/data/c.wav"]) = true /\
  Forall (fun p => path_exists demo_world p = true) ["a.mp3"; "/data/c.wav"] /\
  fst (validate_audio_files demo_world (FilesList ["a.mp3"; "/data/c.wav"]) s0) =
    Return ["/srv/evc/a.mp3"; "/data/c.wav"].
Proof.
  assert (Ht : truthy (FilesList ["a.mp3"; "/data/c.wav"]) = true) by reflexivity.
  assert (Hall : Forall (fun p => path_exists demo_world p = true)
                        (paths_of (FilesList ["a.mp3"; "/data/c.wav"])))
    by (repeat constructor).
  split; [exact Ht | split; [exact Hall |]].
  destruct (validate_audio_files_all_exist demo_world _ s0 Ht Hall) as (vf & Heq & Hvf & _).
  rewrite Heq, Hvf. reflexivity.
Defined.



Lemma generate_random_tag_pattern_witness :
  generate_random_tag demo_world s0 = (Return "USER_43456789", s0) /\
  tag_pattern "USER_43456789" = true.
Proof.
  assert (Hrun : generate_random_tag demo_world s0 = (Return "USER_43456789", s0))
    by (vm_compute; reflexivity).
  split; [exact Hrun |].
  exact (proj1 (generate_random_tag_pattern demo_world s0 s0 "USER_43456789" Hrun)).
Defined.

Lemma find_model_config_first_match_witness :
  MODELS demo_world = Some demo_MODELS /\
  (exists (pre : list ModelEntry) (model_config : ModelEntry) (post : list ModelEntry),
      demo_MODELS = (pre ++ model_config :: post)%list /\
      m_model_name model_config = "Y") /\
  find_model_config demo_world "Z" s0 = (Raise InvalidModelFile, s0 : pystate string nat).
Proof.
  split; [reflexivity |]. split.
  - destruct (find_model_config_first_match (Result := string) (Conv := nat)
                demo_world demo_MODELS "Y" s0 eq_refl)
      as [(Hnone & _) | (pre & mc & post & Heq & _ & Hname & _)].
    + exfalso. apply (Hnone _ (or_introl eq_refl)). reflexivity.
    + exists pre, mc, post. split; assumption.
  - vm_compute. reflexivity.
Defined.

Lemma configure_converter_resample_rate_witness :
  audio_files (demo_params ["a.mp3"; "b.wav"]) = "a.mp3" :: ["b.wav"] /\
  map resample_sr
      (applied_confs
         (trace (snd (configure_converter demo_converter
                                          (demo_params ["a.mp3"; "b.wav"]) s0)))) =
    [44100%Z].
Proof.
  split; [reflexivity |].
  exact (proj1 (proj2 (configure_converter_resample_rate demo_converter
                         (demo_params ["a.mp3"; "b.wav"]) "a.mp3" ["b.wav"] s0 eq_refl))
               eq_refl).
Defined.

(* ================================================================== *)
(** * Further properties of the module *)

Local Close Scope float_scope.

(** ** Suffixes *)

Module SuffixFacts.

Lemma substring_all (s : string) : substring 0 (length s) s = s.
Proof.
  induction s as [| c s IH]; [reflexivity | cbn; now rewrite IH].
Qed.

Lemma substring_after (p s : string) (m : nat) :
  substring (length p) m (p ++ s) = substring 0 m s.
Proof.
  induction p as [| c p IH]; [reflexivity | exact IH].
Qed.

Lemma length_append (p s : string) : length (p ++ s) = (length p + length s)%nat.
Proof.
  induction p as [| c p IH]; [reflexivity | cbn; now rewrite IH].
Qed.

(** A string is its first [n] characters followed by the rest. *)
Lemma substring_split (n : nat) :
  forall s : string,
    (n <= length s)%nat ->
    substring 0 n s ++ substring n (length s - n) s = s.
Proof.
  induction n as [| n IH]; intros s Hn.
  - rewrite Nat.sub_0_r, substring_all. destruct s; reflexivity.
  - destruct s as [| c s]; [cbn in Hn; lia |].
    cbn [length] in Hn. cbn [substring length Nat.sub append].
    now rewrite IH by lia.
Qed.

(** [s.endswith(suffix)] holds exactly of the strings made of some string
    followed by [suffix]. *)
Lemma endswith_iff (s suffix : string) :
  endswith s suffix = true <-> exists p : string, s = p ++ suffix.
Proof.
  unfold endswith. split.
  - intros H. apply andb_prop in H. destruct H as [Hlen Heq].
    apply Nat.leb_le in Hlen. apply String.eqb_eq in Heq.
    exists (substring 0 (length s - length suffix) s).
    pose proof (substring_split (length s - length suffix) s ltac:(lia)) as Hsplit.
    replace (length s - (length s - length suffix))%nat with (length suffix) in Hsplit by lia.
    rewrite Heq in Hsplit. now symmetry.
  - intros [p ->]. rewrite length_append.
    apply andb_true_intro. split; [apply Nat.leb_le; lia |].
    replace (length p + length suffix - length suffix)%nat with (length p) by lia.
    rewrite substring_after, substring_all. apply String.eqb_refl.
Qed.

End SuffixFacts.

(* ================================================================== *)
(** ** The resample rate, by suffix *)

Section RateFacts.

Context {Result Conv : Type}.
Variable converter : BaseLoader Result Conv.

Local Abbreviation state := (pystate Result Conv).

(** What [configure_converter] leaves in the trace: the configuration
    with the derived rate, then the settling delay when [apply_conf]
    returned. *)
Lemma configure_converter_trace (config_params : ConfigParams)
      (first : string) (rest : list string) (s : state) :
  audio_files config_params = first :: rest ->
  let cfg := {| params := config_params;
                resample_sr := if endswith first ".mp3" then 44100%Z else 0%Z |} in
  configure_converter converter config_params s =
    match apply_conf converter cfg (conv s) with
    | (Return _, c) =>
        (Return tt, {| trace := (trace s ++ [EvApplyConf cfg; EvSleep])%list; conv := c |})
    | (Raise e, c) =>
        (Raise e, {| trace := (trace s ++ [EvApplyConf cfg])%list; conv := c |})
    end.
Proof.
  intros Hfiles cfg. subst cfg.
  unfold configure_converter, call_apply_conf, bind. rewrite Hfiles. exec.
  match goal with
  | |- context [apply_conf converter ?cfg ?c] =>
      destruct (apply_conf converter cfg c) as [[[] | e] c']
  end; exec; [| reflexivity].
  now rewrite <- app_assoc.
Qed.

(** X8 -- the converter is told to resample to 44100 exactly when the
    first audio file is some string followed by ".mp3" (lower case, at the
    very end), and to 0 in every other case. *)
Theorem resample_rate_by_suffix (config_params : ConfigParams)
        (first : string) (rest : list string) (s : state) :
  audio_files config_params = first :: rest ->
  ((exists p : string, first = p ++ ".mp3") ->
   map resample_sr (applied_confs (trace (snd (configure_converter converter config_params s)))) =
     (map resample_sr (applied_confs (trace s)) ++ [44100%Z])%list) /\
  ((forall p : string, first <> p ++ ".mp3") ->
   map resample_sr (applied_confs (trace (snd (configure_converter converter config_params s)))) =
     (map resample_sr (applied_confs (trace s)) ++ [0%Z])%list).
Proof.
  intros Hfiles.
  rewrite (configure_converter_trace config_params first rest s Hfiles).
  assert (Hconfs : forall rate,
    (if endswith first ".mp3" then 44100%Z else 0%Z) = rate ->
    map resample_sr
        (applied_confs
           (trace (snd
              (let cfg := {| params := config_params;
                             resample_sr := if endswith first ".mp3" then 44100%Z else 0%Z |} in
               match apply_conf converter cfg (conv s) with
               | (Return _, c) =>
                   (Return tt,
                    {| trace := (trace s ++ [EvApplyConf cfg; EvSleep])%list; conv := c |})
               | (Raise e, c) =>
                   (Raise e, {| trace := (trace s ++ [EvApplyConf cfg])%list; conv := c |})
               end)))) =
      (map resample_sr (applied_confs (trace s)) ++ [rate])%list).
  { intros rate Hrate. cbn zeta.
    destruct (apply_conf converter _ (conv s)) as [[[] | e] c];
      read_trace; rewrite map_app; cbn [map resample_sr]; now rewrite Hrate. }
  split.
  - intros Hsuffix. apply Hconfs.
    now rewrite (proj2 (SuffixFacts.endswith_iff first ".mp3") Hsuffix).
  - intros Hnone. apply Hconfs.
    destruct (endswith first ".mp3") eqn:Hend; [| reflexivity].
    apply SuffixFacts.endswith_iff in Hend. destruct Hend as [p Hp].
    now destruct (Hnone p).
Qed.

End RateFacts.

(* ================================================================== *)
(** ** The entry point, stage by stage *)

(** Unfolds [mainpipe] down to the calls of its stages. *)
Ltac enter :=
  unfold mainpipe, try_except_Exception, mainpipe_body, before_converting,
    get_duration, generate_random_tag, find_model_config, configure_converter,
    call_apply_conf, call_converter, bind.

Section EntryPointFacts.

Context {Result Conv : Type}.
Variable w : World Result.
Variable converter : BaseLoader Result Conv.

Local Abbreviation state := (pystate Result Conv).
Local Abbreviation present := (fun p : string => path_exists w p = true).

Lemma find_none_by_name (model : string) (models : list ModelEntry) :
  (forall m, In m models -> m_model_name m <> model) ->
  find (fun m => m_model_name m =? model) models = None.
Proof.
  induction models as [| a models IH]; intros Hall; [reflexivity |].
  cbn [find]. destruct (m_model_name a =? model) eqn:Ha.
  - apply String.eqb_eq in Ha. now destruct (Hall a (or_introl eq_refl)).
  - apply IH. intros m Hin. apply Hall. now right.
Qed.

Lemma find_first_by_name (model : string) (pre : list ModelEntry)
      (model_config : ModelEntry) (post : list ModelEntry) :
  (forall m, In m pre -> m_model_name m <> model) ->
  m_model_name model_config = model ->
  find (fun m => m_model_name m =? model) (pre ++ model_config :: post) = Some model_config.
Proof.
  intros Hpre Hname. induction pre as [| a pre IH]; cbn [app find].
  - now rewrite (proj2 (String.eqb_eq _ _) Hname).
  - rewrite (proj2 (String.eqb_neq _ _) (Hpre a (or_introl eq_refl))).
    apply IH. intros m Hin. apply Hpre. now right.
Qed.

Lemma snoc_not_same {A : Type} (l : list A) (x : A) : (l ++ [x])%list <> l.
Proof.
  intros H. apply (f_equal (@List.length A)) in H. rewrite length_app in H. cbn in H. lia.
Qed.

(** What the stages before the conversion did.  When they return: every
    stage succeeded, and the trace holds the existence checks, the probe
    of the first file, the print of its duration, the configuration and
    the settling delay.  When they raise: either the converter was left
    alone, or it was handed the assembled configuration and refused it. *)
Lemma before_converting_table (model : string) (files : files_arg)
      (pitch_alg : string) (pitch_lvl index_inf : float) (r_m_f : bool)
      (e_r : float) (c_b_p : bool) (s : state) :
  match before_converting w model files pitch_alg pitch_lvl index_inf
                          r_m_f e_r c_b_p converter s with
  | (Return (valid_files, random_tag), s1) =>
      exists (first : string) (rest : list string) (probe : string -> outcome float)
             (d : float) (entropy : Z) (models : list ModelEntry)
             (model_config : ModelEntry) (c1 : Conv),
        truthy files = true /\
        paths_of files = first :: rest /\
        Forall present (paths_of files) /\
        librosa w = Some probe /\
        probe (path_absolute w first) = Return d /\
        random w = Some entropy /\
        MODELS w = Some models /\
        find (fun m => m_model_name m =? model) models = Some model_config /\
        endswith (m_model model_config) ".pth" = true /\
        valid_files = map (path_absolute w) (paths_of files) /\
        random_tag = "USER_" ++ str_int (randint 10000000 99999999 entropy) /\
        apply_conf converter
          (assembled_config random_tag model_config pitch_alg pitch_lvl index_inf
                            r_m_f e_r c_b_p valid_files (path_absolute w first))
          (conv s) = (Return tt, c1) /\
        s1 = {| trace :=
                  (trace s ++ map EvExists (paths_of files) ++
                   [EvGetDuration (path_absolute w first);
                    EvPrintDuration d;
                    EvApplyConf
                      (assembled_config random_tag model_config pitch_alg pitch_lvl
                                        index_inf r_m_f e_r c_b_p valid_files
                                        (path_absolute w first));
                    EvSleep])%list;
                conv := c1 |}
  | (Raise e, s1) =>
      (applied_confs (trace s1) = applied_confs (trace s) /\ conv s1 = conv s) \/
      (exists (first : string) (rest : list string) (entropy : Z)
              (models : list ModelEntry) (model_config : ModelEntry),
          paths_of files = first :: rest /\
          random w = Some entropy /\
          MODELS w = Some models /\
          find (fun m => m_model_name m =? model) models = Some model_config /\
          applied_confs (trace s1) =
            (applied_confs (trace s) ++
             [assembled_config ("USER_" ++ str_int (randint 10000000 99999999 entropy))
                               model_config pitch_alg pitch_lvl index_inf r_m_f e_r c_b_p
                               (map (path_absolute w) (paths_of files))
                               (path_absolute w first)])%list)
  end.
Proof.
  unfold before_converting, get_duration, generate_random_tag, find_model_config,
    configure_converter, call_apply_conf, bind.
  destruct (validate_audio_files_cases w files s)
    as [[Ht Hv] | [(pre & q & post & Ht & Hp & Hpre & Hq & Hv)
                  | (first & rest & Ht & Hp & Hall & Hv)]]; rewrite Hv.
  - left. split; reflexivity.
  - left. read_trace. split; reflexivity.
  - assert (Hvf : map (path_absolute w) (paths_of files) =
                  path_absolute w first :: map (path_absolute w) rest)
      by (rewrite Hp; reflexivity).
    rewrite Hvf. exec.
    destruct (librosa w) as [probe |] eqn:Hl; exec;
      [| left; read_trace; split; reflexivity].
    destruct (probe (path_absolute w first)) as [d | e] eqn:Hprobe; exec;
      [| left; read_trace; split; reflexivity].
    destruct (random w) as [entropy |] eqn:Hr; exec;
      [| left; read_trace; split; reflexivity].
    destruct (MODELS w) as [models |] eqn:HM; exec;
      [| left; read_trace; split; reflexivity].
    destruct (find _ models) as [model_config |] eqn:Hfind; exec;
      [| left; read_trace; split; reflexivity].
    destruct (endswith (m_model model_config) ".pth") eqn:Hpth; exec;
      [| left; read_trace; split; reflexivity].
    cbn [audio_files].
    match goal with
    | |- context [apply_conf converter ?cfg ?c] =>
        destruct (apply_conf converter cfg c) as [[[] | e] c'] eqn:Hconf
    end; exec.
    + exists first, rest, probe, d, entropy, models, model_config, c'.
      repeat match goal with |- _ /\ _ => split end; try assumption; try reflexivity.
      unfold assembled_config. flatten_trace. reflexivity.
    + right. exists first, rest, entropy, models, model_config.
      repeat match goal with |- _ /\ _ => split end; try assumption; try reflexivity.
      read_trace. reflexivity.
Qed.

(** The stages up to the duration probe, on files that all exist. *)
Lemma validated_then (files : files_arg) (first : string) (rest : list string) (s : state) :
  truthy files = true ->
  paths_of files = first :: rest ->
  Forall present (paths_of files) ->
  validate_audio_files w files s =
    (Return (path_absolute w first :: map (path_absolute w) rest),
     {| trace := (trace s ++ map EvExists (paths_of files))%list; conv := conv s |}).
Proof.
  intros Ht Hp Hall.
  rewrite validate_truthy, validate_loop_all_exist by assumption.
  rewrite Hp at 1. reflexivity.
Qed.

(** An empty or absent input, at the entry point. *)
Lemma mainpipe_falsy_run (model : string) (files : files_arg)
      (pitch_alg : string) (pitch_lvl index_inf : float) (r_m_f : bool)
      (e_r : float) (c_b_p : bool) (s : state) :
  truthy files = false ->
  mainpipe w model files pitch_alg pitch_lvl index_inf r_m_f e_r c_b_p converter s =
    (Raise (AudioConverterError "Conversion failed: No audio files provided"), s).
Proof.
  intros Ht. apply (mainpipe_after_failure w converter _ _ _ _ _ _ _ _ s s InvalidInput).
  unfold before_converting, bind, validate_audio_files. now rewrite Ht.
Qed.

(** A path that is not there, at the entry point. *)
Lemma mainpipe_missing_run (model : string) (files : files_arg)
      (pitch_alg : string) (pitch_lvl index_inf : float) (r_m_f : bool)
      (e_r : float) (c_b_p : bool) (s : state)
      (pre : list string) (q : string) (post : list string) :
  truthy files = true ->
  paths_of files = (pre ++ q :: post)%list ->
  Forall present pre ->
  path_exists w q = false ->
  mainpipe w model files pitch_alg pitch_lvl index_inf r_m_f e_r c_b_p converter s =
    (Raise (AudioConverterError
              ("Conversion failed: " ++
               match stat_error w q with
               | None => "Audio file not found: " ++ q
               | Some msg => msg
               end)),
     {| trace := (trace s ++ map EvExists (pre ++ [q]))%list; conv := conv s |}).
Proof.
  intros Ht Hp Hpre Hq.
  rewrite (mainpipe_after_failure w converter model files pitch_alg pitch_lvl index_inf
             r_m_f e_r c_b_p s
             {| trace := (trace s ++ map EvExists (pre ++ [q]))%list; conv := conv s |}
             (match stat_error w q with
              | None => FileNotFound q
              | Some msg => ExternalError msg
              end)).
  - now destruct (stat_error w q).
  - unfold before_converting, bind.
    now rewrite validate_truthy, Hp, validate_loop_stops by assumption.
Qed.

(** X1 -- a validation failure ends the run at once and reaches the
    caller wrapped: an empty or absent input without a look at the file
    system; a path that is not there after the checks up to it, as
    "Conversion failed: Audio file not found: " and the path when
    [Path.exists] answered [False], and as "Conversion failed: " and the
    text of the [OSError] when [Path.exists] raised.  Neither the duration
    probe nor the converter is called, and the model name plays no
    part. *)
Theorem mainpipe_validation_failure (model : string) (files : files_arg)
        (pitch_alg : string) (pitch_lvl index_inf : float) (r_m_f : bool)
        (e_r : float) (c_b_p : bool) (s : state) :
  (truthy files = false ->
   mainpipe w model files pitch_alg pitch_lvl index_inf r_m_f e_r c_b_p converter s =
     (Raise (AudioConverterError "Conversion failed: No audio files provided"), s)) /\
  (truthy files = true ->
   forall (pre : list string) (q : string) (post : list string),
     paths_of files = (pre ++ q :: post)%list ->
     Forall present pre ->
     path_exists w q = false ->
     mainpipe w model files pitch_alg pitch_lvl index_inf r_m_f e_r c_b_p converter s =
       (Raise (AudioConverterError
                 ("Conversion failed: " ++
                  match stat_error w q with
                  | None => "Audio file not found: " ++ q
                  | Some msg => msg
                  end)),
        {| trace := (trace s ++ map EvExists (pre ++ [q]))%list; conv := conv s |})).
Proof.
  split.
  - apply mainpipe_falsy_run.
  - intros Ht pre q post. now apply mainpipe_missing_run.
Qed.

(** X2 -- with the name [librosa] unbound, as the module leaves it, no
    call returns a result: every call ends in an [AudioConverterError]
    with the converter untouched, and a call whose files all exist ends in
    "Conversion failed: name 'librosa' is not defined" right after the
    existence checks. *)
Theorem mainpipe_unbound_librosa (model : string) (files : files_arg)
        (pitch_alg : string) (pitch_lvl index_inf : float) (r_m_f : bool)
        (e_r : float) (c_b_p : bool) (s : state) :
  librosa w = None ->
  let out := mainpipe w model files pitch_alg pitch_lvl index_inf
                      r_m_f e_r c_b_p converter s in
  (exists msg : string, fst out = Raise (AudioConverterError msg)) /\
  conv (snd out) = conv s /\
  applied_confs (trace (snd out)) = applied_confs (trace s) /\
  convert_calls (trace (snd out)) = convert_calls (trace s) /\
  (truthy files = true ->
   Forall present (paths_of files) ->
   out = (Raise (AudioConverterError "Conversion failed: name 'librosa' is not defined"),
          {| trace := (trace s ++ map EvExists (paths_of files))%list; conv := conv s |})).
Proof.
  intros Hl out. subst out.
  destruct (validate_audio_files_cases w files s)
    as [[Ht Hv] | [(pre & q & post & Ht & Hp & Hpre & Hq & Hv)
                  | (first & rest & Ht & Hp & Hall & Hv)]].
  - rewrite (mainpipe_falsy_run model files pitch_alg pitch_lvl index_inf
                                r_m_f e_r c_b_p s Ht).
    repeat split; [eexists; reflexivity | congruence].
  - rewrite (mainpipe_missing_run model files pitch_alg pitch_lvl index_inf
                                  r_m_f e_r c_b_p s pre q post Ht Hp Hpre Hq).
    read_trace. repeat split; [eexists; reflexivity |].
    intros _ Hall. rewrite Hp in Hall.
    pose proof (proj1 (Forall_forall _ _) Hall q (in_elt q pre post)) as Hq'.
    cbn beta in Hq'. congruence.
  - assert (Hrun :
      mainpipe w model files pitch_alg pitch_lvl index_inf r_m_f e_r c_b_p converter s =
        (Raise (AudioConverterError "Conversion failed: name 'librosa' is not defined"),
         {| trace := (trace s ++ map EvExists (paths_of files))%list; conv := conv s |})).
    { apply (mainpipe_after_failure w converter _ _ _ _ _ _ _ _ s _ (NameError "librosa")).
      unfold before_converting, get_duration, bind.
      rewrite (validated_then files first rest s Ht Hp Hall), Hl. reflexivity. }
    rewrite Hrun. read_trace. repeat split. eexists; reflexivity.
Qed.

(** The stages up to the model lookup, on files that all exist, with the
    probe and the tag at hand. *)
Lemma before_model_lookup (model : string) (files : files_arg)
      (pitch_alg : string) (pitch_lvl index_inf : float) (r_m_f : bool)
      (e_r : float) (c_b_p : bool) (s : state)
      (first : string) (rest : list string) (probe : string -> outcome float)
      (d : float) (entropy : Z) (models : list ModelEntry) :
  truthy files = true ->
  paths_of files = first :: rest ->
  Forall present (paths_of files) ->
  librosa w = Some probe ->
  probe (path_absolute w first) = Return d ->
  random w = Some entropy ->
  MODELS w = Some models ->
  before_converting w model files pitch_alg pitch_lvl index_inf r_m_f e_r c_b_p converter s =
    match find (fun m => m_model_name m =? model) models with
    | None =>
        (Raise (ModelNotFound model),
         {| trace := (trace s ++ map EvExists (paths_of files) ++
                      [EvGetDuration (path_absolute w first); EvPrintDuration d])%list;
            conv := conv s |})
    | Some model_config =>
        if endswith (m_model model_config) ".pth"
        then
          (configure_converter converter
             (params (assembled_config
                        ("USER_" ++ str_int (randint 10000000 99999999 entropy))
                        model_config pitch_alg pitch_lvl index_inf r_m_f e_r c_b_p
                        (path_absolute w first :: map (path_absolute w) rest)
                        (path_absolute w first))) ;;
           ret (path_absolute w first :: map (path_absolute w) rest,
                "USER_" ++ str_int (randint 10000000 99999999 entropy)))
            {| trace := (trace s ++ map EvExists (paths_of files) ++
                         [EvGetDuration (path_absolute w first); EvPrintDuration d])%list;
               conv := conv s |}
        else
          (Raise InvalidModelFile,
           {| trace := (trace s ++ map EvExists (paths_of files) ++
                        [EvGetDuration (path_absolute w first); EvPrintDuration d])%list;
              conv := conv s |})
    end.
Proof.
  intros Ht Hp Hall Hl Hprobe Hr HM.
  unfold before_converting, get_duration, generate_random_tag, find_model_config.
  unfold bind at 1. rewrite (validated_then files first rest s Ht Hp Hall).
  unfold bind at 1. rewrite Hl. unfold bind at 1. exec.
  unfold bind at 1. exec. rewrite Hprobe. exec.
  unfold bind at 1. exec. unfold bind at 1. rewrite Hr. exec.
  unfold bind at 1. rewrite HM.
  destruct (find _ models) as [model_config |]; [| exec; flatten_trace; reflexivity].
  destruct (endswith (m_model model_config) ".pth"); exec; flatten_trace; reflexivity.
Qed.

(** X3 -- the duration is probed on the first validated file only, and a
    probe that fails ends the run before a tag is drawn or the converter is
    touched: the caller gets the probe's error wrapped. *)
Theorem mainpipe_probe_failure (model : string) (files : files_arg)
        (pitch_alg : string) (pitch_lvl index_inf : float) (r_m_f : bool)
        (e_r : float) (c_b_p : bool) (s : state)
        (first : string) (rest : list string) (probe : string -> outcome float)
        (e : exn) :
  truthy files = true ->
  paths_of files = first :: rest ->
  Forall present (paths_of files) ->
  librosa w = Some probe ->
  probe (path_absolute w first) = Raise e ->
  is_Exception e = true ->
  mainpipe w model files pitch_alg pitch_lvl index_inf r_m_f e_r c_b_p converter s =
    (Raise (AudioConverterError ("Conversion failed: " ++ str_exn e)),
     {| trace := (trace s ++ map EvExists (paths_of files) ++
                  [EvGetDuration (path_absolute w first)])%list;
        conv := conv s |}).
Proof.
  intros Ht Hp Hall Hl Hprobe He.
  rewrite (mainpipe_after_failure w converter model files pitch_alg pitch_lvl index_inf r_m_f e_r c_b_p
             s {| trace := (trace s ++ map EvExists (paths_of files) ++
                            [EvGetDuration (path_absolute w first)])%list;
                  conv := conv s |} e).
  - now rewrite He.
  - unfold before_converting, get_duration.
    unfold bind at 1. rewrite (validated_then files first rest s Ht Hp Hall).
    unfold bind at 1. rewrite Hl. unfold bind at 1. exec.
    unfold bind at 1. exec. rewrite Hprobe. exec. flatten_trace. reflexivity.
Qed.

(** X4 -- once the files are validated, the duration probed and the tag
    drawn, a name that no entry of the registry bears ends the run with
    "Conversion failed: Model not found: " and the name, and a first entry
    of that name whose weights path does not end in ".pth" ends it with
    "Conversion failed: Invalid model file (must be .pth)"; in both cases
    the converter is neither configured nor called. *)
Theorem mainpipe_model_failure (model : string) (files : files_arg)
        (pitch_alg : string) (pitch_lvl index_inf : float) (r_m_f : bool)
        (e_r : float) (c_b_p : bool) (s : state)
        (first : string) (rest : list string) (probe : string -> outcome float)
        (d : float) (entropy : Z) (models : list ModelEntry) :
  truthy files = true ->
  paths_of files = first :: rest ->
  Forall present (paths_of files) ->
  librosa w = Some probe ->
  probe (path_absolute w first) = Return d ->
  random w = Some entropy ->
  MODELS w = Some models ->
  let stopped := {| trace := (trace s ++ map EvExists (paths_of files) ++
                              [EvGetDuration (path_absolute w first);
                               EvPrintDuration d])%list;
                    conv := conv s |} in
  ((forall m, In m models -> m_model_name m <> model) ->
   mainpipe w model files pitch_alg pitch_lvl index_inf r_m_f e_r c_b_p converter s =
     (Raise (AudioConverterError ("Conversion failed: Model not found: " ++ model)),
      stopped)) /\
  (forall (pre : list ModelEntry) (model_config : ModelEntry) (post : list ModelEntry),
      models = (pre ++ model_config :: post)%list ->
      (forall m, In m pre -> m_model_name m <> model) ->
      m_model_name model_config = model ->
      endswith (m_model model_config) ".pth" = false ->
      mainpipe w model files pitch_alg pitch_lvl index_inf r_m_f e_r c_b_p converter s =
        (Raise (AudioConverterError "Conversion failed: Invalid model file (must be .pth)"),
         stopped)).
Proof.
  intros Ht Hp Hall Hl Hprobe Hr HM stopped.
  pose proof (before_model_lookup model files pitch_alg pitch_lvl index_inf r_m_f e_r c_b_p s
                first rest probe d entropy models Ht Hp Hall Hl Hprobe Hr HM) as Hrun.
  split.
  - intros Hnone. rewrite (find_none_by_name model models Hnone) in Hrun.
    apply (mainpipe_after_failure w converter _ _ _ _ _ _ _ _ _ _ _ Hrun).
  - intros pre model_config post -> Hpre Hname Hpth.
    rewrite (find_first_by_name model pre model_config post Hpre Hname), Hpth in Hrun.
    apply (mainpipe_after_failure w converter _ _ _ _ _ _ _ _ _ _ _ Hrun).
Qed.

(** X5 -- the converter is never called, and its state never changes, in
    a run that did not configure it, and such a run ends in an exception;
    every other run configured it exactly once. *)
Theorem mainpipe_configures_before_converting (model : string) (files : files_arg)
        (pitch_alg : string) (pitch_lvl index_inf : float) (r_m_f : bool)
        (e_r : float) (c_b_p : bool) (s : state) :
  let out := mainpipe w model files pitch_alg pitch_lvl index_inf
                      r_m_f e_r c_b_p converter s in
  (applied_confs (trace (snd out)) = applied_confs (trace s) /\
   convert_calls (trace (snd out)) = convert_calls (trace s) /\
   conv (snd out) = conv s /\
   exists e : exn, fst out = Raise e) \/
  (exists cfg : ConversionConfig,
      applied_confs (trace (snd out)) = (applied_confs (trace s) ++ [cfg])%list).
Proof.
  intros out. subst out.
  pose proof (before_converting_table model files pitch_alg pitch_lvl index_inf
                                      r_m_f e_r c_b_p s) as Htable.
  pose proof (before_converting_run w converter model files pitch_alg pitch_lvl index_inf
                                    r_m_f e_r c_b_p s) as (Hcalls & _ & _).
  destruct (before_converting w model files pitch_alg pitch_lvl index_inf
                              r_m_f e_r c_b_p converter s)
    as [[[valid_files random_tag] | e] s1] eqn:Hbefore.
  - right.
    destruct Htable as (first & rest & probe & d & entropy & models & model_config & c1 &
                        _ & _ & _ & _ & _ & _ & _ & _ & _ & _ & _ & _ & Hs1).
    exists (assembled_config random_tag model_config pitch_alg pitch_lvl index_inf
                             r_m_f e_r c_b_p valid_files (path_absolute w first)).
    rewrite (mainpipe_after_ready w converter _ _ _ _ _ _ _ _ _ _ _ _ Hbefore). rewrite Hs1.
    destruct (call converter valid_files random_tag false 8%Z _) as [[result | e] c];
      [destruct (print_error w result) |]; read_trace; reflexivity.
  - rewrite (mainpipe_after_failure w converter _ _ _ _ _ _ _ _ _ _ _ Hbefore).
    cbn [fst snd] in *.
    destruct Htable as [[Hconfs Hconv] | (first & rest & entropy & models & model_config &
                                          _ & _ & _ & _ & Hconfs)].
    + left. repeat split; try assumption.
      destruct (is_Exception e); eexists; reflexivity.
    + right. eexists. exact Hconfs.
Qed.

(** X6 -- a call returns a result only when every stage succeeded: the
    files all exist, the three names are bound, the probe returned, the
    first entry bearing the model name has a ".pth" weights path, the
    converter accepted the configuration and returned a non-empty
    sequence.  The result is the head of that sequence, the converter is
    left in the state its call left, and the outside world saw, in this
    order: one existence check per path, the probe of the first file, the
    print of its duration, the configuration, the settling delay, the
    conversion and the print of its result. *)
Theorem mainpipe_success_run (model : string) (files : files_arg)
        (pitch_alg : string) (pitch_lvl index_inf : float) (r_m_f : bool)
        (e_r : float) (c_b_p : bool) (s : state) (r : Result) :
  fst (mainpipe w model files pitch_alg pitch_lvl index_inf r_m_f e_r c_b_p converter s) =
    Return r ->
  exists (first : string) (rest : list string) (probe : string -> outcome float)
         (d : float) (entropy : Z) (models : list ModelEntry)
         (model_config : ModelEntry) (c1 c2 : Conv) (others : list Result),
    truthy files = true /\
    paths_of files = first :: rest /\
    Forall present (paths_of files) /\
    librosa w = Some probe /\
    probe (path_absolute w first) = Return d /\
    random w = Some entropy /\
    MODELS w = Some models /\
    find (fun m => m_model_name m =? model) models = Some model_config /\
    endswith (m_model model_config) ".pth" = true /\
    let valid_files := map (path_absolute w) (paths_of files) in
    let random_tag := "USER_" ++ str_int (randint 10000000 99999999 entropy) in
    let cfg := assembled_config random_tag model_config pitch_alg pitch_lvl index_inf
                                r_m_f e_r c_b_p valid_files (path_absolute w first) in
    apply_conf converter cfg (conv s) = (Return tt, c1) /\
    call converter valid_files random_tag false 8%Z c1 = (Return (r :: others), c2) /\
    snd (mainpipe w model files pitch_alg pitch_lvl index_inf r_m_f e_r c_b_p converter s) =
      {| trace :=
           (trace s ++ map EvExists (paths_of files) ++
            [EvGetDuration (path_absolute w first);
             EvPrintDuration d;
             EvApplyConf cfg;
             EvSleep;
             EvConvert valid_files random_tag false 8%Z;
             EvPrintResult (r :: others)])%list;
         conv := c2 |}.
Proof.
  intros Hret.
  pose proof (before_converting_table model files pitch_alg pitch_lvl index_inf
                                      r_m_f e_r c_b_p s) as Htable.
  destruct (before_converting w model files pitch_alg pitch_lvl index_inf
                              r_m_f e_r c_b_p converter s)
    as [[[valid_files random_tag] | e] s1] eqn:Hbefore.
  - destruct Htable as (first & rest & probe & d & entropy & models & model_config & c1 &
                        Ht & Hp & Hall & Hl & Hprobe & Hr & HM & Hfind & Hpth &
                        Hvf & Htag & Hconf & Hs1).
    rewrite (mainpipe_after_ready w converter _ _ _ _ _ _ _ _ _ _ _ _ Hbefore) in Hret |- *.
    destruct (call converter valid_files random_tag false 8%Z (conv s1))
      as [[result | e] c2] eqn:Hcall;
      [destruct (print_error w result) as [msg |];
       [| destruct result as [| r' others]] |]; cbn [fst snd] in *.
    + discriminate.
    + discriminate.
    + assert (r' = r) by congruence. subst r'.
      exists first, rest, probe, d, entropy, models, model_config, c1, c2, others.
      cbv zeta. rewrite <- Hvf, <- Htag.
      repeat match goal with |- _ /\ _ => split end; try assumption.
      * rewrite Hs1 in Hcall. exact Hcall.
      * rewrite Hs1. cbn [trace]. flatten_trace. reflexivity.
    + destruct (is_Exception e); discriminate.
  - rewrite (mainpipe_after_failure w converter _ _ _ _ _ _ _ _ _ _ _ Hbefore) in Hret.
    cbn [fst] in Hret. destruct (is_Exception e); discriminate.
Qed.

(** X7 -- whenever the converter is configured, it is handed the caller's
    five tuning parameters as they came, the weights and index paths of
    the first registry entry bearing the model name, the tag drawn for the
    run, the absolute paths of all the files and the rate read off the
    first of them; and if it is then called, it is called with the files
    and the tag of that configuration. *)
Theorem mainpipe_assembled_config (model : string) (files : files_arg)
        (pitch_alg : string) (pitch_lvl index_inf : float) (r_m_f : bool)
        (e_r : float) (c_b_p : bool) (s : state) :
  let out := mainpipe w model files pitch_alg pitch_lvl index_inf
                      r_m_f e_r c_b_p converter s in
  applied_confs (trace (snd out)) = applied_confs (trace s) \/
  exists (first : string) (rest : list string) (entropy : Z)
         (models : list ModelEntry) (model_config : ModelEntry),
    paths_of files = first :: rest /\
    random w = Some entropy /\
    MODELS w = Some models /\
    find (fun m => m_model_name m =? model) models = Some model_config /\
    let cfg := assembled_config ("USER_" ++ str_int (randint 10000000 99999999 entropy))
                                model_config pitch_alg pitch_lvl index_inf r_m_f e_r c_b_p
                                (map (path_absolute w) (paths_of files))
                                (path_absolute w first) in
    applied_confs (trace (snd out)) = (applied_confs (trace s) ++ [cfg])%list /\
    (convert_calls (trace (snd out)) = convert_calls (trace s) \/
     convert_calls (trace (snd out)) =
       (convert_calls (trace s) ++
        [(audio_files (params cfg), tag (params cfg), false, 8%Z)])%list).
Proof.
  intros out. subst out.
  pose proof (before_converting_table model files pitch_alg pitch_lvl index_inf
                                      r_m_f e_r c_b_p s) as Htable.
  pose proof (before_converting_run w converter model files pitch_alg pitch_lvl index_inf
                                    r_m_f e_r c_b_p s) as (Hcalls & _ & _).
  destruct (before_converting w model files pitch_alg pitch_lvl index_inf
                              r_m_f e_r c_b_p converter s)
    as [[[valid_files random_tag] | e] s1] eqn:Hbefore; cbn [fst snd] in Hcalls.
  - right.
    destruct Htable as (first & rest & probe & d & entropy & models & model_config & c1 &
                        _ & Hp & _ & _ & _ & Hr & HM & Hfind & _ & Hvf & Htag & _ & Hs1).
    exists first, rest, entropy, models, model_config.
    cbv zeta. rewrite <- Hvf, <- Htag. cbn [params assembled_config audio_files tag].
    repeat match goal with |- _ /\ _ => split end; try assumption.
    + rewrite (mainpipe_after_ready w converter _ _ _ _ _ _ _ _ _ _ _ _ Hbefore). rewrite Hs1.
      destruct (call converter valid_files random_tag false 8%Z _) as [[result | e] c];
        [destruct (print_error w result) |]; read_trace; reflexivity.
    + right. rewrite (mainpipe_after_ready w converter _ _ _ _ _ _ _ _ _ _ _ _ Hbefore).
      destruct (call converter valid_files random_tag false 8%Z _) as [[result | e] c];
        [destruct (print_error w result) |]; read_trace; now rewrite Hcalls.
  - rewrite (mainpipe_after_failure w converter _ _ _ _ _ _ _ _ _ _ _ Hbefore). cbn [snd].
    destruct Htable as [[Hconfs _] | (first & rest & entropy & models & model_config &
                                      Hp & Hr & HM & Hfind & Hconfs)].
    + now left.
    + right. exists first, rest, entropy, models, model_config.
      cbv zeta. repeat match goal with |- _ /\ _ => split end; try assumption.
      now left.
Qed.

(** X9 -- a failure of the conversion, or an empty result, is reported
    after the fact: the converter has been configured and called, it keeps
    the state its call left, and an empty result has been printed before
    the error is raised. *)
Theorem mainpipe_failure_after_conversion (model : string) (files : files_arg)
        (pitch_alg : string) (pitch_lvl index_inf : float) (r_m_f : bool)
        (e_r : float) (c_b_p : bool) (s s1 : state)
        (valid_files : list string) (random_tag : string) (c : Conv) :
  before_converting w model files pitch_alg pitch_lvl index_inf
                    r_m_f e_r c_b_p converter s = (Return (valid_files, random_tag), s1) ->
  (call converter valid_files random_tag false 8%Z (conv s1) = (Return [], c) ->
   mainpipe w model files pitch_alg pitch_lvl index_inf r_m_f e_r c_b_p converter s =
     (Raise (AudioConverterError "Conversion failed: list index out of range"),
      {| trace := (trace s1 ++ [EvConvert valid_files random_tag false 8%Z;
                                EvPrintResult []])%list;
         conv := c |})) /\
  (forall e : exn,
      call converter valid_files random_tag false 8%Z (conv s1) = (Raise e, c) ->
      is_Exception e = true ->
      mainpipe w model files pitch_alg pitch_lvl index_inf r_m_f e_r c_b_p converter s =
        (Raise (AudioConverterError ("Conversion failed: " ++ str_exn e)),
         {| trace := (trace s1 ++ [EvConvert valid_files random_tag false 8%Z])%list;
            conv := c |})).
Proof.
  intros Hbefore.
  rewrite (mainpipe_after_ready w converter _ _ _ _ _ _ _ _ _ _ _ _ Hbefore).
  split.
  - intros ->. reflexivity.
  - intros e -> ->. reflexivity.
Qed.

End EntryPointFacts.

(* ================================================================== *)
(** ** Instances on the concrete environment *)

Lemma resample_rate_by_suffix_witness :
  audio_files (demo_params ["a.mp3"; "b.wav"]) = "a.mp3" :: ["b.wav"] /\
  (exists p : string, "a.mp3" = p ++ ".mp3") /\
  map resample_sr
      (applied_confs
         (trace (snd (configure_converter demo_converter
                                          (demo_params ["a.mp3"; "b.wav"]) s0)))) =
    [44100%Z].
Proof.
  assert (Hsuffix : exists p : string, "a.mp3" = p ++ ".mp3") by (exists "a"; reflexivity).
  split; [reflexivity | split; [exact Hsuffix |]].
  exact (proj1 (resample_rate_by_suffix demo_converter (demo_params ["a.mp3"; "b.wav"])
                  "a.mp3" ["b.wav"] s0 eq_refl) Hsuffix).
Defined.

Lemma mainpipe_validation_failure_witness :
  demo_run demo_world "nope" FilesNone demo_converter =
    (Raise (AudioConverterError "Conversion failed: No audio files provided"), s0) /\
  demo_run demo_world "nope" (FilesList ["a.mp3"; "no1"; "b.wav"]) demo_converter =
    (Raise (AudioConverterError "Conversion failed: Audio file not found: no1"),
     {| trace := [EvExists "a.mp3"; EvExists "no1"]; conv := 0%nat |}).
Proof.
  split.
  - exact (proj1 (mainpipe_validation_failure demo_world demo_converter "nope" FilesNone
                    "rmvpe" 0%float 0.75%float true 0.25%float true s0) eq_refl).
  - exact (proj2 (mainpipe_validation_failure demo_world demo_converter "nope"
                    (FilesList ["a.mp3"; "no1"; "b.wav"])
                    "rmvpe" 0%float 0.75%float true 0.25%float true s0)
                 eq_refl ["a.mp3"] "no1" ["b.wav"] eq_refl
                 ltac:(repeat constructor) eq_refl).
Defined.

Lemma mainpipe_unbound_librosa_witness :
  librosa bare_world = None /\
  demo_run bare_world "Y" (FilesStr "b.wav") demo_converter =
    (Raise (AudioConverterError "Conversion failed: name 'librosa' is not defined"),
     {| trace := [EvExists "b.wav"]; conv := 0%nat |}).
Proof.
  split; [reflexivity |].
  exact (proj2 (proj2 (proj2 (proj2
           (mainpipe_unbound_librosa bare_world demo_converter "Y" (FilesStr "b.wav")
              "rmvpe" 0%float 0.75%float true 0.25%float true s0 eq_refl))))
           eq_refl ltac:(repeat constructor)).
Defined.

Lemma mainpipe_probe_failure_witness :
  demo_run deaf_world "Y" (FilesList ["a.mp3"; "b.wav"]) demo_converter =
    (Raise (AudioConverterError "Conversion failed: NoBackendError"),
     {| trace := [EvExists "a.mp3"; EvExists "b.wav"; EvGetDuration "/srv/evc/a.mp3"];
        conv := 0%nat |}).
Proof.
  exact (mainpipe_probe_failure deaf_world demo_converter "Y" (FilesList ["a.mp3"; "b.wav"])
           "rmvpe" 0%float 0.75%float true 0.25%float true s0
           "a.mp3" ["b.wav"] (fun _ => Raise (ExternalError "NoBackendError"))
           (ExternalError "NoBackendError")
           eq_refl eq_refl
           ltac:(repeat constructor)
           eq_refl eq_refl eq_refl).
Defined.

Lemma mainpipe_model_failure_witness :
  fst (demo_run demo_world "X" (FilesStr "b.wav") demo_converter) =
    Raise (AudioConverterError "Conversion failed: Model not found: X") /\
  fst (demo_run demo_world "Z" (FilesStr "b.wav") demo_converter) =
    Raise (AudioConverterError "Conversion failed: Invalid model file (must be .pth)") /\
  conv (snd (demo_run demo_world "Z" (FilesStr "b.wav") demo_converter)) = 0%nat.
Proof.
  assert (Hall : Forall (fun p => path_exists demo_world p = true)
                        (paths_of (FilesStr "b.wav")))
    by (repeat constructor).
  assert (HX : forall m, In m demo_MODELS -> m_model_name m <> "X").
  { intros m [<- | [<- | [<- | []]]]; discriminate. }
  assert (HZ : forall m,
             In m [ {| m_model_name := "Y"; m_model := "weights/Y.pth";
                       m_index := "weights/Y.index" |} ] ->
             m_model_name m <> "Z").
  { intros m [<- | []]; discriminate. }
  unfold demo_run. split; [| split].
  - rewrite (proj1 (mainpipe_model_failure demo_world demo_converter "X" (FilesStr "b.wav")
                      "rmvpe" 0%float 0.75%float true 0.25%float true s0
                      "b.wav" [] (fun _ => Return 2.5%float) 2.5%float 123456789%Z demo_MODELS
                      eq_refl eq_refl Hall eq_refl eq_refl eq_refl eq_refl) HX).
    reflexivity.
  - rewrite (proj2 (mainpipe_model_failure demo_world demo_converter "Z" (FilesStr "b.wav")
                      "rmvpe" 0%float 0.75%float true 0.25%float true s0
                      "b.wav" [] (fun _ => Return 2.5%float) 2.5%float 123456789%Z demo_MODELS
                      eq_refl eq_refl Hall eq_refl eq_refl eq_refl eq_refl)
                   [ {| m_model_name := "Y"; m_model := "weights/Y.pth";
                        m_index := "weights/Y.index" |} ]
                   {| m_model_name := "Z"; m_model := "weights.onnx";
                      m_index := "weights/Z.index" |}
                   [ {| m_model_name := "Y"; m_model := "weights/Y2.onnx";
                        m_index := "weights/Y2.index" |} ]
                   eq_refl HZ eq_refl eq_refl).
    reflexivity.
  - rewrite (proj2 (mainpipe_model_failure demo_world demo_converter "Z" (FilesStr "b.wav")
                      "rmvpe" 0%float 0.75%float true 0.25%float true s0
                      "b.wav" [] (fun _ => Return 2.5%float) 2.5%float 123456789%Z demo_MODELS
                      eq_refl eq_refl Hall eq_refl eq_refl eq_refl eq_refl)
                   [ {| m_model_name := "Y"; m_model := "weights/Y.pth";
                        m_index := "weights/Y.index" |} ]
                   {| m_model_name := "Z"; m_model := "weights.onnx";
                      m_index := "weights/Z.index" |}
                   [ {| m_model_name := "Y"; m_model := "weights/Y2.onnx";
                        m_index := "weights/Y2.index" |} ]
                   eq_refl HZ eq_refl eq_refl).
    reflexivity.
Defined.

Lemma mainpipe_success_run_witness :
  fst (demo_run demo_world "Y" (FilesStr "b.wav") demo_converter) =
    Return "USER_43456789:/srv/evc/b.wav" /\
  exists (model_config : ModelEntry) (entropy : Z),
    find (fun m => m_model_name m =? "Y") demo_MODELS = Some model_config /\
    endswith (m_model model_config) ".pth" = true /\
    random demo_world = Some entropy.
Proof.
  assert (Hret : fst (demo_run demo_world "Y" (FilesStr "b.wav") demo_converter) =
                 Return "USER_43456789:/srv/evc/b.wav") by (vm_compute; reflexivity).
  split; [exact Hret |].
  destruct (mainpipe_success_run demo_world demo_converter "Y" (FilesStr "b.wav")
              "rmvpe" 0%float 0.75%float true 0.25%float true s0 _ Hret)
    as (first & rest & probe & d & entropy & models & model_config & c1 & c2 & others &
        _ & _ & _ & _ & _ & Hr & HM & Hfind & Hpth & _).
  exists model_config, entropy.
  assert (models = demo_MODELS) by (cbn in HM; congruence). subst models.
  repeat split; assumption.
Defined.

Lemma mainpipe_failure_after_conversion_witness :
  demo_run demo_world "Y" (FilesList ["a.mp3"; "b.wav"]) silent_converter =
    (Raise (AudioConverterError "Conversion failed: list index out of range"),
     {| trace :=
          (trace (snd (before_converting demo_world "Y" (FilesList ["a.mp3"; "b.wav"])
                         "rmvpe" 0%float 0.75%float true 0.25%float true
                         silent_converter s0)) ++
           [EvConvert ["/srv/evc/a.mp3"; "/srv/evc/b.wav"] "USER_43456789" false 8%Z;
            EvPrintResult []])%list;
        conv := 2%nat |}).
Proof.
  assert (Hbefore :
    before_converting demo_world "Y" (FilesList ["a.mp3"; "b.wav"])
                      "rmvpe" 0%float 0.75%float true 0.25%float true silent_converter s0 =
      (Return (["/srv/evc/a.mp3"; "/srv/evc/b.wav"], "USER_43456789"),
       snd (before_converting demo_world "Y" (FilesList ["a.mp3"; "b.wav"])
              "rmvpe" 0%float 0.75%float true 0.25%float true silent_converter s0)))
    by (vm_compute; reflexivity).
  exact (proj1 (mainpipe_failure_after_conversion demo_world silent_converter "Y"
                  (FilesList ["a.mp3"; "b.wav"])
                  "rmvpe" 0%float 0.75%float true 0.25%float true s0 _ _ _ 2%nat Hbefore)
               ltac:(vm_compute; reflexivity)).
Defined.
